(** * The SAM application wizard and the quick-pick prompt bridge

    A shallow embedding of
      - [src/lambda/wizards/samInitWizard.ts]: the wizard's fields, its
        steps, [getResult], and the default context's [promptUserForTemplate];
      - the picker helpers [createQuickPick], [promptUser],
        [promptUserWithBusyMessage], [verifySinglePickerOutput],
        [makeQuickPickBusy], [makeQuickPickNotBusy] (the second part of
        [src/shared/sam/cli/samCliConfiguration.ts]).

    JavaScript values are modelled as follows: a value of type [X | undefined]
    is an [option X] ([None] is [undefined]); a promise is a cell that is
    pending, fulfilled or rejected and that keeps the first settlement; the
    user and the population task are a timeline of turns of the event loop. *)

From Stdlib Require Import List String Ascii Bool Arith Lia DecimalString.
Import ListNotations.
Local Open Scope string_scope.
Local Open Scope list_scope.

Set Implicit Arguments.

(* ================================================================= *)
(** ** JavaScript truthiness of the values the wizard stores *)

Module Js.

(** Whether a string is truthy ([!s] is false): the empty string is not. *)
Definition truthy_string (s : string) : bool :=
  negb (String.eqb s "").

(** Whether a value of type [string | undefined] is truthy. *)
Definition truthy (x : option string) : bool :=
  match x with
  | Some s => truthy_string s
  | None => false
  end.

(** Whether a value of type [object | undefined] is truthy: every object is. *)
Definition truthy_obj {A : Type} (x : option A) : bool :=
  match x with
  | Some _ => true
  | None => false
  end.

(** [x === 'literal'] on [string | undefined]. *)
Definition strict_eq (x : option string) (lit : string) : bool :=
  match x with
  | Some s => String.eqb s lit
  | None => false
  end.

End Js.

(* ================================================================= *)
(** ** The wizard's data *)

Definition Runtime := string.
Definition SamLambdaTemplate := string.

(** [vscode.Uri] is an object; only its identity matters here. *)
Record Uri := mkUri { fsPath : string }.

(** The private fields of [CreateNewSamAppWizard], all optional. *)
Record CreateNewSamAppWizard := mkWizard {
  runtime : option Runtime;
  template : option SamLambdaTemplate;
  region : option string;
  registryName : option string;
  schemaName : option string;
  location : option Uri;
  name : option string
}.

(** The wizard as constructed: no field is set. *)
Definition newWizard : CreateNewSamAppWizard :=
  mkWizard None None None None None None None.

(** The object [getResult] builds.  Its fields hold the values as they are at
    run time: the non-null assertions [this.region!] and the like are erased
    by the compiler, so the three schema fields can hold [undefined]. *)
Record CreateNewSamAppWizardResponse := mkResponse {
  r_runtime : option Runtime;
  r_template : option SamLambdaTemplate;
  r_region : option string;
  r_registryName : option string;
  r_schemaName : option string;
  r_location : option Uri;
  r_name : option string
}.

(** The object literal of [getResult]. *)
Definition response_of (w : CreateNewSamAppWizard) : CreateNewSamAppWizardResponse :=
  {| r_runtime := runtime w;
     r_template := template w;
     r_region := region w;
     r_registryName := registryName w;
     r_schemaName := schemaName w;
     r_location := location w;
     r_name := name w |}.

(** [if (!this.runtime || !this.template || !this.location || !this.name)]. *)
Definition mandatory_missing (w : CreateNewSamAppWizard) : bool :=
  negb (Js.truthy (runtime w))
  || negb (Js.truthy (template w))
  || negb (Js.truthy_obj (location w))
  || negb (Js.truthy (name w)).

Definition getResult (w : CreateNewSamAppWizard)
  : option CreateNewSamAppWizardResponse :=
  if mandatory_missing w then None else Some (response_of w).

(** All four mandatory fields are set (to a truthy value). *)
Definition mandatory_set (w : CreateNewSamAppWizard) : Prop :=
  Js.truthy (runtime w) = true /\
  Js.truthy (template w) = true /\
  Js.truthy_obj (location w) = true /\
  Js.truthy (name w) = true.

(** Some mandatory field is absent ([undefined]). *)
Definition mandatory_absent (w : CreateNewSamAppWizard) : Prop :=
  runtime w = None \/ template w = None \/ location w = None \/ name w = None.

(* ================================================================= *)
(** ** The context the wizard prompts through *)

(** The interface [CreateNewSamAppWizardContext].  A context is an object
    with state of its own (type [C]); each prompt takes the state and returns
    the new state with the value its promise resolves to.  Arguments the
    wizard passes with a non-null assertion ([this.runtime!], [this.region!])
    are the [option] they are at run time. *)
Record CreateNewSamAppWizardContext (C : Type) := mkContext {
  promptUserForRuntime : C -> option Runtime -> C * option Runtime;
  promptUserForTemplate :
    C -> option Runtime -> option SamLambdaTemplate -> C * option SamLambdaTemplate;
  promptUserForRegion : C -> option string -> C * option string;
  promptUserForRegistry : C -> option string -> option string -> C * option string;
  promptUserForSchema : C -> option string -> option string -> C * option string;
  promptUserForLocation : C -> C * option Uri;
  promptUserForName : C -> C * option string
}.

(* ================================================================= *)
(** ** The steps of [CreateNewSamAppWizard] *)

(** A step identifier: one per [WizardStep] member of the class. *)
Inductive WizardStep :=
| RUNTIME | TEMPLATE | REGION | REGISTRY | SCHEMA | LOCATION | NAME.

Definition set_runtime (v : option Runtime) (w : CreateNewSamAppWizard) :=
  mkWizard v (template w) (region w) (registryName w) (schemaName w) (location w) (name w).
Definition set_template (v : option SamLambdaTemplate) (w : CreateNewSamAppWizard) :=
  mkWizard (runtime w) v (region w) (registryName w) (schemaName w) (location w) (name w).
Definition set_region (v : option string) (w : CreateNewSamAppWizard) :=
  mkWizard (runtime w) (template w) v (registryName w) (schemaName w) (location w) (name w).
Definition set_registryName (v : option string) (w : CreateNewSamAppWizard) :=
  mkWizard (runtime w) (template w) (region w) v (schemaName w) (location w) (name w).
Definition set_schemaName (v : option string) (w : CreateNewSamAppWizard) :=
  mkWizard (runtime w) (template w) (region w) (registryName w) v (location w) (name w).
Definition set_location (v : option Uri) (w : CreateNewSamAppWizard) :=
  mkWizard (runtime w) (template w) (region w) (registryName w) (schemaName w) v (name w).
Definition set_name (v : option string) (w : CreateNewSamAppWizard) :=
  mkWizard (runtime w) (template w) (region w) (registryName w) (schemaName w) (location w) v.

Section Steps.
Variable C : Type.
Variable context : CreateNewSamAppWizardContext C.

(** What a step has done when its promise resolves: the wizard's fields, the
    context's state, and the value returned, a step or [undefined]. *)
Definition StepOutcome : Type := (CreateNewSamAppWizard * C) * option WizardStep.

(** [this.runtime = await this.context.promptUserForRuntime(this.runtime)]
    [return this.runtime ? this.TEMPLATE : undefined] *)
Definition RUNTIME_step (w : CreateNewSamAppWizard) (c : C) : StepOutcome :=
  let (c', v) := promptUserForRuntime context c (runtime w) in
  ((set_runtime v w, c'), if Js.truthy v then Some TEMPLATE else None).

(** [this.template = await this.context.promptUserForTemplate(this.runtime!)] *)
Definition TEMPLATE_step (w : CreateNewSamAppWizard) (c : C) : StepOutcome :=
  let (c', v) := promptUserForTemplate context c (runtime w) None in
  ((set_template v w, c'),
   if Js.strict_eq v "eventBridge-schema-app" then Some REGION
   else if Js.truthy v then Some LOCATION else Some RUNTIME).

Definition REGION_step (w : CreateNewSamAppWizard) (c : C) : StepOutcome :=
  let (c', v) := promptUserForRegion context c None in
  ((set_region v w, c'), if Js.truthy v then Some REGISTRY else Some TEMPLATE).

Definition REGISTRY_step (w : CreateNewSamAppWizard) (c : C) : StepOutcome :=
  let (c', v) := promptUserForRegistry context c (region w) None in
  ((set_registryName v w, c'), if Js.truthy v then Some SCHEMA else Some TEMPLATE).

Definition SCHEMA_step (w : CreateNewSamAppWizard) (c : C) : StepOutcome :=
  let (c', v) := promptUserForSchema context c (region w) None in
  ((set_schemaName v w, c'), if Js.truthy v then Some LOCATION else Some REGISTRY).

(** Both branches of the inner test on the template return [this.TEMPLATE]. *)
Definition LOCATION_step (w : CreateNewSamAppWizard) (c : C) : StepOutcome :=
  let (c', v) := promptUserForLocation context c in
  let w' := set_location v w in
  ((w', c'),
   if negb (Js.truthy_obj v)
   then (if Js.strict_eq (template w') "eventBridge-schema-app"
         then Some TEMPLATE else Some TEMPLATE)
   else Some NAME).

(** [return this.name ? undefined : this.LOCATION] *)
Definition NAME_step (w : CreateNewSamAppWizard) (c : C) : StepOutcome :=
  let (c', v) := promptUserForName context c in
  ((set_name v w, c'), if Js.truthy v then None else Some LOCATION).

(** Calling the step function a step identifier refers to. *)
Definition call_step (s : WizardStep) (w : CreateNewSamAppWizard) (c : C) : StepOutcome :=
  match s with
  | RUNTIME => RUNTIME_step w c
  | TEMPLATE => TEMPLATE_step w c
  | REGION => REGION_step w c
  | REGISTRY => REGISTRY_step w c
  | SCHEMA => SCHEMA_step w c
  | LOCATION => LOCATION_step w c
  | NAME => NAME_step w c
  end.

(** [protected get startStep() { return this.RUNTIME }] *)
Definition startStep : WizardStep := RUNTIME.

(** The value the prompt of a step resolves to, as the step stores it. *)
Inductive FieldValue :=
| FString (v : option string)
| FUri (v : option Uri).

(** The field a step assigns. *)
Definition owned_field (s : WizardStep) (w : CreateNewSamAppWizard) : FieldValue :=
  match s with
  | RUNTIME => FString (runtime w)
  | TEMPLATE => FString (template w)
  | REGION => FString (region w)
  | REGISTRY => FString (registryName w)
  | SCHEMA => FString (schemaName w)
  | LOCATION => FUri (location w)
  | NAME => FString (name w)
  end.

(** The answer the context gives to the prompt of step [s]. *)
Definition prompt_answer (s : WizardStep) (w : CreateNewSamAppWizard) (c : C) : FieldValue :=
  match s with
  | RUNTIME => FString (snd (promptUserForRuntime context c (runtime w)))
  | TEMPLATE => FString (snd (promptUserForTemplate context c (runtime w) None))
  | REGION => FString (snd (promptUserForRegion context c None))
  | REGISTRY => FString (snd (promptUserForRegistry context c (region w) None))
  | SCHEMA => FString (snd (promptUserForSchema context c (region w) None))
  | LOCATION => FUri (snd (promptUserForLocation context c))
  | NAME => FString (snd (promptUserForName context c))
  end.

End Steps.

(** The fields of the wizard other than the one step [s] assigns. *)
Definition other_fields (s : WizardStep) (w : CreateNewSamAppWizard)
  : list FieldValue :=
  match s with
  | RUNTIME => [FString (template w); FString (region w); FString (registryName w);
                FString (schemaName w); FUri (location w); FString (name w)]
  | TEMPLATE => [FString (runtime w); FString (region w); FString (registryName w);
                 FString (schemaName w); FUri (location w); FString (name w)]
  | REGION => [FString (runtime w); FString (template w); FString (registryName w);
               FString (schemaName w); FUri (location w); FString (name w)]
  | REGISTRY => [FString (runtime w); FString (template w); FString (region w);
                 FString (schemaName w); FUri (location w); FString (name w)]
  | SCHEMA => [FString (runtime w); FString (template w); FString (region w);
               FString (registryName w); FUri (location w); FString (name w)]
  | LOCATION => [FString (runtime w); FString (template w); FString (region w);
                 FString (registryName w); FString (schemaName w); FString (name w)]
  | NAME => [FString (runtime w); FString (template w); FString (region w);
             FString (registryName w); FString (schemaName w); FUri (location w)]
  end.

(** The forward order of the steps: backward navigation goes from a step to
    one of lower rank. *)
Definition step_rank (s : WizardStep) : nat :=
  match s with
  | RUNTIME => 0 | TEMPLATE => 1 | REGION => 2 | REGISTRY => 3
  | SCHEMA => 4 | LOCATION => 5 | NAME => 6
  end.

(* ================================================================= *)
(** ** The wizard engine *)

(** Modelled from the spec: the base class [MultiStepWizard] with its [run()]
    loop ([shared/wizards/multiStepWizard.ts]) is not among the sources.  The
    spec gives a step three kinds of result: the terminate sentinel,
    [undefined] (abort), or the identifier of the next step.  The steps of the
    class produce the last two only ([of_js] below). *)
Inductive StepResult (Id : Type) :=
| Terminate
| Undefined
| NextStep (s : Id).
Arguments Terminate {Id}.
Arguments Undefined {Id}.
Arguments NextStep {Id} s.

Section Engine.
Variables Id St : Type.
Variable invoke : Id -> St -> St * StepResult Id.

(** [reaches s st path s' st']: started at step [s] in state [st], the loop
    invokes the steps of [path], each returning the next one, and is then
    about to invoke [s'] in state [st']. *)
Inductive reaches : Id -> St -> list Id -> Id -> St -> Prop :=
| reaches_here s st : reaches s st [] s st
| reaches_next s st s1 st1 path s' st' :
    invoke s st = (st1, NextStep s1) ->
    reaches s1 st1 path s' st' ->
    reaches s st (s :: path) s' st'.

End Engine.

(** What a finished [run()] leaves behind: the value returned, the steps
    invoked in order, and the final state. *)
Record RunReport (Id St Res : Type) := mkReport {
  result : option Res;
  invoked : list Id;
  final : St
}.

Definition also_invoked {Id St Res : Type} (s : Id) (r : RunReport Id St Res)
  : RunReport Id St Res :=
  mkReport (result r) (s :: invoked r) (final r).

(** The report of a run that first walks [path]. *)
Definition after_path {Id St Res : Type} (path : list Id) (r : RunReport Id St Res)
  : RunReport Id St Res :=
  mkReport (result r) (path ++ invoked r) (final r).

Section Loop.
Variables Id St Res : Type.

(** A step function as the class declares it: the state it leaves, and the
    step it returns or [undefined]. *)
Variable step : Id -> St -> St * option Id.

(** The abstract [getResult] of the base class. *)
Variable assemble : St -> option Res.

(** Modelled from the spec: the [run()] loop of [MultiStepWizard]
    ([shared/wizards/multiStepWizard.ts], not among the sources), as section 2
    describes the engine: it invokes the current step, replaces the pointer
    by the value returned, stops when a step returns the value that stands
    for no next step, and then returns the assembled result, or [undefined]
    when a mandatory field is missing.  The steps of the class return a step
    or [undefined], so the value that stops the loop is [undefined], and
    [getResult] is what tells a completed wizard from a cancelled one.
    Section 4.1 of the spec names an abort value apart from the terminate
    sentinel; the steps have no second value to return.  The loop has no bound
    of its own: [fuel] bounds the number of step invocations and [None] means
    that the loop is still running after that many. *)
Fixpoint run_from (fuel : nat) (cur : Id) (st : St)
  : option (RunReport Id St Res) :=
  match fuel with
  | O => None
  | S fuel' =>
      let (st', r) := step cur st in
      match r with
      | None => Some (mkReport (assemble st') [cur] st')
      | Some next => option_map (also_invoked cur) (run_from fuel' next st')
      end
  end.

End Loop.

Section WizardRun.
Variable C : Type.
Variable context : CreateNewSamAppWizardContext C.

(** The steps of the class return a step or [undefined], nothing else: the
    class has no other value to return. *)
Definition of_js (r : option WizardStep) : StepResult WizardStep :=
  match r with
  | None => Undefined
  | Some s => NextStep s
  end.

Definition wizard_invoke (s : WizardStep) (st : CreateNewSamAppWizard * C)
  : (CreateNewSamAppWizard * C) * StepResult WizardStep :=
  let (st', r) := call_step context s (fst st) (snd st) in (st', of_js r).

(** A step of the wizard on the pair of the wizard's fields and the state of
    its context. *)
Definition wizard_step (s : WizardStep) (st : CreateNewSamAppWizard * C)
  : (CreateNewSamAppWizard * C) * option WizardStep :=
  call_step context s (fst st) (snd st).

Definition wizard_assemble (st : CreateNewSamAppWizard * C)
  : option CreateNewSamAppWizardResponse :=
  getResult (fst st).

(** [run()] on a wizard just constructed, with the context in state [c]. *)
Definition run (fuel : nat) (c : C) :=
  run_from wizard_step wizard_assemble fuel startStep (newWizard, c).

End WizardRun.

(** A context for examples, in the manner of a test double: its state is the
    list of answers still to give, one per prompt; when the list is empty the
    prompt is cancelled. *)
Definition pop (c : list (option string)) : list (option string) * option string :=
  match c with
  | [] => ([], None)
  | a :: rest => (rest, a)
  end.

Definition scriptedContext : CreateNewSamAppWizardContext (list (option string)) :=
  {| promptUserForRuntime := fun c _ => pop c;
     promptUserForTemplate := fun c _ _ => pop c;
     promptUserForRegion := fun c _ => pop c;
     promptUserForRegistry := fun c _ _ => pop c;
     promptUserForSchema := fun c _ _ => pop c;
     promptUserForLocation := fun c => let (c', a) := pop c in (c', option_map mkUri a);
     promptUserForName := fun c => pop c |}.

(* ================================================================= *)
(** ** Promises *)

Inductive Settlement (A : Type) :=
| Fulfilled (v : A)
| Rejected (reason : string).
Arguments Fulfilled {A} v.
Arguments Rejected {A} reason.

(** A promise keeps its first settlement; a later call of [resolve] or
    [reject] has no effect (it is recorded in [dropped] for the proofs). *)
Record Promise (A : Type) := mkPromise {
  settlement : option (Settlement A);
  dropped : list (Settlement A)
}.

Definition newPromise (A : Type) : Promise A := mkPromise None [].

Definition settle {A : Type} (x : Settlement A) (p : Promise A) : Promise A :=
  match settlement p with
  | None => mkPromise (Some x) (dropped p)
  | Some _ => mkPromise (settlement p) (dropped p ++ [x])
  end.

Definition is_settled {A : Type} (p : Promise A) : bool :=
  match settlement p with
  | Some _ => true
  | None => false
  end.

(* ================================================================= *)
(** ** The quick pick *)

(** The buttons the prompts use: [vscode.QuickInputButtons.Back], the help
    button of the context, and any other button. *)
Inductive QuickInputButton :=
| Back
| HelpButton
| OtherButton (n : nat).

(** The two documentation links of [shared/constants]. *)
Inductive DocUrl :=
| samInitDocUrl
| schemaCodeDownloadDocUrl.

Record QuickPickItem := mkItem {
  label : string;
  alwaysShow : bool;
  description : string
}.

Inductive EventKind :=
| OnDidAccept
| OnDidHide
| OnDidTriggerButton.

Definition EventKind_eqb (a b : EventKind) : bool :=
  match a, b with
  | OnDidAccept, OnDidAccept => true
  | OnDidHide, OnDidHide => true
  | OnDidTriggerButton, OnDidTriggerButton => true
  | _, _ => false
  end.

Section Picker.
Variable T : Type.

(** The widget: the properties the code reads and writes. *)
Record QuickPick := mkQuickPick {
  title : option string;
  placeholder : option string;
  value : string;
  matchOnDescription : bool;
  matchOnDetail : bool;
  ignoreFocusOut : bool;
  items : list T;
  buttons : list QuickInputButton;
  selectedItems : list T;
  enabled : bool;
  busy : bool;
  visible : bool
}.

(** [vscode.window.createQuickPick()]. *)
Definition emptyQuickPick : QuickPick :=
  mkQuickPick None None "" false false false [] [] [] true false false.

Definition set_selectedItems (v : list T) (p : QuickPick) : QuickPick :=
  mkQuickPick (title p) (placeholder p) (value p) (matchOnDescription p)
    (matchOnDetail p) (ignoreFocusOut p) (items p) (buttons p) v
    (enabled p) (busy p) (visible p).
Definition set_items (v : list T) (p : QuickPick) : QuickPick :=
  mkQuickPick (title p) (placeholder p) (value p) (matchOnDescription p)
    (matchOnDetail p) (ignoreFocusOut p) v (buttons p) (selectedItems p)
    (enabled p) (busy p) (visible p).
Definition set_buttons (v : list QuickInputButton) (p : QuickPick) : QuickPick :=
  mkQuickPick (title p) (placeholder p) (value p) (matchOnDescription p)
    (matchOnDetail p) (ignoreFocusOut p) (items p) v (selectedItems p)
    (enabled p) (busy p) (visible p).
Definition set_visible (v : bool) (p : QuickPick) : QuickPick :=
  mkQuickPick (title p) (placeholder p) (value p) (matchOnDescription p)
    (matchOnDetail p) (ignoreFocusOut p) (items p) (buttons p) (selectedItems p)
    (enabled p) (busy p) v.
Definition set_enabled_busy (e b : bool) (p : QuickPick) : QuickPick :=
  mkQuickPick (title p) (placeholder p) (value p) (matchOnDescription p)
    (matchOnDetail p) (ignoreFocusOut p) (items p) (buttons p) (selectedItems p)
    e b (visible p).

(** [vscode.QuickPickOptions & AdditionalQuickPickOptions], the part
    [createQuickPick] reads. *)
Record QuickPickOptions := mkOptions {
  o_title : option string;
  o_placeHolder : option string;
  o_value : option string;
  o_matchOnDescription : option bool;
  o_matchOnDetail : option bool;
  o_ignoreFocusOut : option bool
}.

Definition createQuickPick (options : option QuickPickOptions)
  (items0 : option (list T)) (buttons0 : option (list QuickInputButton))
  : QuickPick :=
  let picker0 := emptyQuickPick in
  let picker1 :=
    match options with
    | Some o =>
        mkQuickPick (o_title o) (o_placeHolder o)
          (match o_value o with
           | Some v => if Js.truthy_string v then v else ""
           | None => ""
           end)
          (match o_matchOnDescription o with
           | Some b => b | None => matchOnDescription picker0 end)
          (match o_matchOnDetail o with
           | Some b => b | None => matchOnDetail picker0 end)
          (match o_ignoreFocusOut o with
           | Some b => b | None => ignoreFocusOut picker0 end)
          (items picker0) (buttons picker0) (selectedItems picker0)
          (enabled picker0) (busy picker0) (visible picker0)
    | None => picker0
    end in
  let picker2 :=
    match items0 with Some l => set_items l picker1 | None => picker1 end in
  match buttons0 with Some l => set_buttons l picker2 | None => picker2 end.

Definition makeQuickPickBusy (p : QuickPick) : QuickPick := set_enabled_busy false true p.
Definition makeQuickPickNotBusy (p : QuickPick) : QuickPick := set_enabled_busy true false p.

(* ----------------------------------------------------------------- *)
(** *** Listeners *)

(** What a caller's [onDidTriggerButton] does with the [resolve] and [reject]
    it is given, in order. *)
Inductive HandlerAction :=
| CallResolve (v : option (list T))
| CallReject (reason : string)
| OpenExternal (url : DocUrl).

Definition ButtonHandler : Type := QuickInputButton -> list HandlerAction.

(** The closures the two prompt functions register on the widget. *)
Inductive Callback :=
| ResolveWithSelection                 (* [() => resolve(Array.from(picker.selectedItems))] *)
| ResolveWithUndefined                 (* [() => resolve(undefined)] *)
| CallButtonHandler (h : ButtonHandler)  (* [btn => onDidTriggerButton(btn, resolve, reject)] *)
| ResolveFalse.                        (* [() => resolve(false)] *)

(** A registered listener; the [Disposable] returned for it is its
    identifier. *)
Record Subscription := mkSub {
  sub_id : nat;
  sub_kind : EventKind;
  sub_callback : Callback
}.

(** The widget with its listeners, the two promises of the prompt functions,
    and the links opened so far. *)
Record Session := mkSession {
  picker : QuickPick;
  listeners : list Subscription;
  nextSubscription : nat;
  response : Promise (option (list T));
  didComplete : Promise bool;
  opened : list DocUrl
}.

Definition newSession (p : QuickPick) : Session :=
  mkSession p [] 0 (newPromise _) (newPromise _) [].

Definition set_picker (v : QuickPick) (s : Session) : Session :=
  mkSession v (listeners s) (nextSubscription s) (response s) (didComplete s) (opened s).
Definition set_listeners (v : list Subscription) (s : Session) : Session :=
  mkSession (picker s) v (nextSubscription s) (response s) (didComplete s) (opened s).
Definition set_response (v : Promise (option (list T))) (s : Session) : Session :=
  mkSession (picker s) (listeners s) (nextSubscription s) v (didComplete s) (opened s).
Definition set_didComplete (v : Promise bool) (s : Session) : Session :=
  mkSession (picker s) (listeners s) (nextSubscription s) (response s) v (opened s).
Definition set_opened (v : list DocUrl) (s : Session) : Session :=
  mkSession (picker s) (listeners s) (nextSubscription s) (response s) (didComplete s) v.

(** [picker.onDidX(callback, picker, disposables)]: registers the listener
    and returns its disposable. *)
Definition subscribe (k : EventKind) (cb : Callback) (s : Session) : Session * nat :=
  let id := nextSubscription s in
  (mkSession (picker s) (listeners s ++ [mkSub id k cb]) (S id)
     (response s) (didComplete s) (opened s),
   id).

(** [d.dispose()]. *)
Definition dispose (id : nat) (s : Session) : Session :=
  set_listeners (filter (fun sub => negb (Nat.eqb (sub_id sub) id)) (listeners s)) s.

(** [disposables.forEach(d => d.dispose())]. *)
Definition dispose_all (ids : list nat) (s : Session) : Session :=
  fold_left (fun acc id => dispose id acc) ids s.

(* ----------------------------------------------------------------- *)
(** *** Events *)

Inductive UiEvent :=
| EvSelect (sel : list T)          (* the user changes the selection *)
| EvAccept                         (* the widget fires [onDidAccept] *)
| EvHide                           (* the widget is hidden and fires [onDidHide] *)
| EvButton (b : QuickInputButton). (* the widget fires [onDidTriggerButton] *)

Definition run_action (a : HandlerAction) (s : Session) : Session :=
  match a with
  | CallResolve v => set_response (settle (Fulfilled v) (response s)) s
  | CallReject r => set_response (settle (Rejected r) (response s)) s
  | OpenExternal u => set_opened (opened s ++ [u]) s
  end.

Definition run_callback (ev : UiEvent) (cb : Callback) (s : Session) : Session :=
  match cb with
  | ResolveWithSelection =>
      set_response (settle (Fulfilled (Some (selectedItems (picker s)))) (response s)) s
  | ResolveWithUndefined =>
      set_response (settle (Fulfilled None) (response s)) s
  | CallButtonHandler h =>
      match ev with
      | EvButton b => fold_left (fun acc a => run_action a acc) (h b) s
      | _ => s
      end
  | ResolveFalse =>
      set_didComplete (settle (Fulfilled false) (didComplete s)) s
  end.

(** The widget calls the listeners of kind [k], in the order they were
    registered. *)
Definition fire (k : EventKind) (ev : UiEvent) (s : Session) : Session :=
  fold_left (fun acc sub => run_callback ev (sub_callback sub) acc)
    (filter (fun sub => EventKind_eqb (sub_kind sub) k) (listeners s)) s.

Definition deliver (ev : UiEvent) (s : Session) : Session :=
  match ev with
  | EvSelect sel => set_picker (set_selectedItems sel (picker s)) s
  | EvAccept => fire OnDidAccept ev s
  | EvHide => fire OnDidHide ev (set_picker (set_visible false (picker s)) s)
  | EvButton b => fire OnDidTriggerButton ev s
  end.

(** The events of one turn of the event loop, delivered one after the other
    before any continuation of a promise runs. *)
Definition deliver_all (burst : list UiEvent) (s : Session) : Session :=
  fold_left (fun acc ev => deliver ev acc) burst s.

(** [picker.show()]. *)
Definition show (s : Session) : Session :=
  set_picker (set_visible true (picker s)) s.

(** [picker.hide()]: a visible widget is hidden and tells its listeners. *)
Definition hide (s : Session) : Session :=
  if visible (picker s) then deliver EvHide s else s.

End Picker.

Arguments CallResolve {T} v.
Arguments CallReject {T} reason.
Arguments OpenExternal {T} url.
Arguments ResolveWithSelection {T}.
Arguments ResolveWithUndefined {T}.
Arguments CallButtonHandler {T} h.
Arguments ResolveFalse {T}.
Arguments EvSelect {T} sel.
Arguments EvAccept {T}.
Arguments EvHide {T}.
Arguments EvButton {T} b.

(* ================================================================= *)
(** ** [promptUser] and [promptUserWithBusyMessage] *)

Section Prompt.
Variable T : Type.

(** The promise of [promptUser] is awaited over the turns of the event loop:
    the events of a turn are all delivered, then the continuation runs if the
    promise has been settled.  Returns the turns not yet consumed. *)
Fixpoint await_response (bursts : list (list (UiEvent T))) (s : Session T)
  : Session T * list (list (UiEvent T)) :=
  match bursts with
  | [] => (s, [])
  | b :: rest =>
      let s' := deliver_all b s in
      if is_settled (response s') then (s', rest) else await_response rest s'
  end.

(** What a call has produced once the timeline is used up: the session, the
    settlement of the returned promise ([None]: not settled, the caller is
    still waiting), and the turns left. *)
Record PromptReturn := mkPromptReturn {
  after : Session T;
  outcome : option (Settlement (option (list T)));
  remaining : list (list (UiEvent T))
}.

Definition promptUser (onDidTriggerButton : option (ButtonHandler T))
  (bursts : list (list (UiEvent T))) (s : Session T) : PromptReturn :=
  (* new Promise: the executor registers the listeners and shows the picker *)
  let s0 := set_response (newPromise _) s in
  let (s1, d1) := subscribe OnDidAccept ResolveWithSelection s0 in
  let (s2, d2) := subscribe OnDidHide ResolveWithUndefined s1 in
  let (s3, disposables) :=
    match onDidTriggerButton with
    | Some h =>
        let (s', d3) := subscribe OnDidTriggerButton (CallButtonHandler h) s2 in
        (s', [d1; d2; d3])
    | None => (s2, [d1; d2])
    end in
  let s4 := show s3 in
  (* await *)
  let (s5, rest) := await_response bursts s4 in
  match settlement (response s5) with
  | None => mkPromptReturn s5 None rest
  | Some r =>
      (* finally *)
      mkPromptReturn (hide (dispose_all disposables s5)) (Some r) rest
  end.

(** A turn of the event loop while the picker is busy: events of the widget,
    or the settlement of the population task. *)
Inductive Turn :=
| Ui (burst : list (UiEvent T))
| PopulatorFulfilled
| PopulatorRejected (reason : string).

Definition ui_bursts (turns : list Turn) : list (list (UiEvent T)) :=
  flat_map (fun t => match t with Ui b => [b] | _ => [] end) turns.

(** The promise [didComplete] is awaited.  [awaiting] tells whether the async
    executor is still suspended at [await populator]; when the task rejects
    the executor throws, its own promise (which nobody holds) is rejected,
    and [reject] has not been called. *)
Fixpoint await_didComplete (turns : list Turn) (awaiting : bool)
  (unhandled : list string) (s : Session T)
  : Session T * list string * list Turn :=
  match turns with
  | [] => (s, unhandled, [])
  | Ui b :: rest =>
      let s' := deliver_all b s in
      if is_settled (didComplete s') then (s', unhandled, rest)
      else await_didComplete rest awaiting unhandled s'
  | PopulatorFulfilled :: rest =>
      if awaiting then
        (* [resolve(true)] *)
        let s' := set_didComplete (settle (Fulfilled true) (didComplete s)) s in
        if is_settled (didComplete s') then (s', unhandled, rest)
        else await_didComplete rest false unhandled s'
      else await_didComplete rest awaiting unhandled s
  | PopulatorRejected reason :: rest =>
      if awaiting then await_didComplete rest false (unhandled ++ [reason]) s
      else await_didComplete rest awaiting unhandled s
  end.

Record BusyReturn := mkBusyReturn {
  busy_after : Session T;
  busy_outcome : option (Settlement (option (list T)));
  promptStarted : bool;
  unhandledRejections : list string
}.

Definition promptUserWithBusyMessage (onDidTriggerButton : option (ButtonHandler T))
  (turns : list Turn) (s : Session T) : BusyReturn :=
  let s0 := set_didComplete (newPromise _) s in
  let (s1, d) := subscribe OnDidHide ResolveFalse s0 in
  let disposables := [d] in
  let s2 := show (set_picker (makeQuickPickBusy (picker s1)) s1) in
  let '(s3, unhandled, rest) := await_didComplete turns true [] s2 in
  match settlement (didComplete s3) with
  | None => mkBusyReturn s3 None false unhandled
  | Some (Fulfilled true) =>
      let s4 := set_picker (makeQuickPickNotBusy (picker s3)) s3 in
      let r := promptUser onDidTriggerButton (ui_bursts rest) s4 in
      mkBusyReturn (after r) (outcome r) true unhandled
  | Some (Fulfilled false) =>
      mkBusyReturn (dispose_all disposables s3) (Some (Fulfilled None)) false unhandled
  | Some (Rejected reason) =>
      mkBusyReturn s3 (Some (Rejected reason)) false unhandled
  end.

End Prompt.

Arguments Ui {T} burst.
Arguments PopulatorFulfilled {T}.
Arguments PopulatorRejected {T} reason.

(* ================================================================= *)
(** ** Vocabulary for timelines and sessions *)

Section Timelines.
Variable T : Type.

(** An action of a button handler that calls [resolve] or [reject]. *)
Definition settles (a : HandlerAction T) : bool :=
  match a with
  | CallResolve _ => true
  | CallReject _ => true
  | OpenExternal _ => false
  end.

(** An event that leaves the promise of [promptUser] as it is: a change of
    selection, or a button for which the handler, if there is one, calls
    neither [resolve] nor [reject]. *)
Definition quiet (h : option (ButtonHandler T)) (ev : UiEvent T) : bool :=
  match ev with
  | EvSelect _ => true
  | EvButton b =>
      match h with
      | Some handler => negb (existsb settles (handler b))
      | None => true
      end
  | EvAccept => false
  | EvHide => false
  end.

Definition is_hide (ev : UiEvent T) : bool :=
  match ev with
  | EvHide => true
  | _ => false
  end.

(** A hide event occurs among the widget events of the turns. *)
Definition has_hide (turns : list (Turn T)) : bool :=
  existsb (existsb is_hide) (ui_bursts turns).

(** The selection of the widget after the events [evs]. *)
Definition selection_after (evs : list (UiEvent T)) (init : list T) : list T :=
  fold_left (fun sel ev => match ev with EvSelect s => s | _ => sel end) evs init.

(** The listeners already on the widget belong to a busy phase: none of them
    is a closure over the promise of [promptUser]. *)
Definition foreign_only (s : Session T) : Prop :=
  Forall (fun sub => sub_callback sub = ResolveFalse) (listeners s).

(** Disposables handed out so far are older than the next one. *)
Definition well_formed (s : Session T) : Prop :=
  Forall (fun sub => sub_id sub < nextSubscription s) (listeners s).

(** The closures [promptUser] registers with handler [h], each on its own
    event, and closures of a busy phase. *)
Definition tame (h : option (ButtonHandler T)) (sub : Subscription T) : Prop :=
  match sub_callback sub with
  | ResolveWithSelection => sub_kind sub = OnDidAccept
  | ResolveWithUndefined => sub_kind sub = OnDidHide
  | CallButtonHandler h' => sub_kind sub = OnDidTriggerButton /\ h = Some h'
  | ResolveFalse => True
  end.

(** The callbacks leave the widget and its listeners as they are. *)
Definition same_widget (s s' : Session T) : Prop :=
  picker s' = picker s /\ listeners s' = listeners s /\
  nextSubscription s' = nextSubscription s.

(** An event leaves the listeners and the busy state as they are. *)
Definition same_subscriptions (s s' : Session T) : Prop :=
  listeners s' = listeners s /\ nextSubscription s' = nextSubscription s /\
  busy (picker s') = busy (picker s) /\ enabled (picker s') = enabled (picker s).

(** The promise of the busy phase is pending or resolved with [false]. *)
Definition pending_or_cancelled (s : Session T) : Prop :=
  settlement (didComplete s) = None \/
  settlement (didComplete s) = Some (Fulfilled false).

(** The listeners [promptUser] registers when the next disposable is [n]. *)
Definition prompt_subscriptions (h : option (ButtonHandler T)) (n : nat)
  : list (Subscription T) :=
  mkSub n OnDidAccept ResolveWithSelection
  :: mkSub (S n) OnDidHide ResolveWithUndefined
  :: match h with
     | Some handler => [mkSub (S (S n)) OnDidTriggerButton (CallButtonHandler handler)]
     | None => []
     end.

(** The session when the executor of [promptUser] has run: a new promise,
    the listeners registered, the picker shown. *)
Definition prompt_shown (h : option (ButtonHandler T)) (s : Session T) : Session T :=
  mkSession (set_visible true (picker s))
    (listeners s ++ prompt_subscriptions h (nextSubscription s))
    (nextSubscription s + List.length (prompt_subscriptions h (nextSubscription s)))
    (newPromise _) (didComplete s) (opened s).

(** The session when the executor of [promptUserWithBusyMessage] is suspended
    at [await populator]: a new promise, the hide listener registered, the
    picker busy and shown. *)
Definition busy_shown (s : Session T) : Session T :=
  mkSession (set_visible true (makeQuickPickBusy (picker s)))
    (listeners s ++ [mkSub (nextSubscription s) OnDidHide ResolveFalse])
    (S (nextSubscription s))
    (response s) (newPromise _) (opened s).

(** The hide listener of the busy phase is among the listeners. *)
Definition hide_cancels (s : Session T) : Prop :=
  Exists (fun sub => sub_kind sub = OnDidHide /\ sub_callback sub = ResolveFalse)
    (listeners s).

(** The busy phase with its hide listener [n] alone on the widget and its
    promise pending. *)
Definition busy_waiting (n : nat) (s : Session T) : Prop :=
  listeners s = [mkSub n OnDidHide ResolveFalse] /\
  settlement (didComplete s) = None.

(** No hide event in any of the turns. *)
Definition no_hide (bursts : list (list (UiEvent T))) : bool :=
  forallb (fun b => negb (existsb is_hide b)) bursts.

End Timelines.

(* ================================================================= *)
(** ** [verifySinglePickerOutput] *)

(** What the logger receives. *)
Inductive LogEntry :=
| Warn (message : string).

(** [`${choices.length}`] *)
Definition show_length (n : nat) : string :=
  NilZero.string_of_uint (Nat.to_uint n).

Definition unexpected_count_message (n : nat) : string :=
  "Received " ++ show_length n ++ " responses from user, expected 1."
  ++ " Cancelling to prevent deployment of unexpected template.".

(** Returns the value and the entries written to the log. *)
Definition verifySinglePickerOutput {T : Type} (choices : option (list T))
  : option T * list LogEntry :=
  match choices with
  | None => (None, [])
  | Some l =>
      if Nat.eqb (List.length l) 0 then (None, [])
      else if Nat.ltb 1 (List.length l)
           then (None, [Warn (unexpected_count_message (List.length l))])
           else (nth_error l 0, [])
  end.

(* ================================================================= *)
(** ** [DefaultCreateNewSamAppWizardContext] *)

Module DefaultContext.

(** The fields of the class that hold the runtime and template sets; a set is
    the list [toArray()] gives.  [lambdaTemplatesHelloWorld] is the one field
    not declared [readonly]. *)
Record DefaultCreateNewSamAppWizardContext := mkDefault {
  lambdaRuntimes : list Runtime;
  lambdaTemplates : list SamLambdaTemplate;
  lambdaTemplatesHelloWorld : list SamLambdaTemplate
}.

(** The context as constructed from the constants of [samLambdaRuntime]. *)
Definition construct (samLambdaRuntimes : list Runtime)
  (samLambdaTemplates samLambdaTemplatesHelloWorld : list SamLambdaTemplate) :=
  mkDefault samLambdaRuntimes samLambdaTemplates samLambdaTemplatesHelloWorld.

(** The handler every picker prompt of the context passes: Back resolves
    with [undefined], the help button opens the documentation. *)
Definition buttonHandler (doc : DocUrl) : ButtonHandler QuickPickItem :=
  fun button =>
    match button with
    | Back => [CallResolve None]
    | HelpButton => [OpenExternal doc]
    | OtherButton _ => []
    end.

(** [localize(key, default)] is taken to give the default text. *)
Definition selectedPreviously : string := "Selected Previously".

Definition templateItem (currLanguage : option SamLambdaTemplate)
  (language : SamLambdaTemplate) : QuickPickItem :=
  {| label := language;
     alwaysShow := Js.strict_eq currLanguage language;
     description :=
       if Js.strict_eq currLanguage language then selectedPreviously else "" |}.

(** What one call of [promptUserForTemplate] has done: the context after the
    call, the picker it created, the session at the end, the settlement of
    the returned promise, and the log. *)
Record TemplatePrompt := mkTemplatePrompt {
  context_after : DefaultCreateNewSamAppWizardContext;
  created : QuickPick QuickPickItem;
  session_after : Session QuickPickItem;
  answer : option (Settlement (option SamLambdaTemplate));
  logged : list LogEntry
}.

Definition promptUserForTemplate (this : DefaultCreateNewSamAppWizardContext)
  (currRuntime : option Runtime) (currLanguage : option SamLambdaTemplate)
  (bursts : list (list (UiEvent QuickPickItem))) : TemplatePrompt :=
  let this' :=
    if Js.strict_eq currRuntime "python3.7" || Js.strict_eq currRuntime "python3.6"
    then mkDefault (lambdaRuntimes this) (lambdaTemplates this) (lambdaTemplates this)
    else this in
  let quickPick :=
    createQuickPick
      (Some {| o_title := Some "Select a code binding language";
               o_placeHolder := None;
               o_value := Some (match currLanguage with
                                | Some l => if Js.truthy_string l then l else ""
                                | None => ""
                                end);
               o_matchOnDescription := None;
               o_matchOnDetail := None;
               o_ignoreFocusOut := Some true |})
      (Some (map (templateItem currLanguage) (lambdaTemplatesHelloWorld this')))
      (Some [HelpButton; Back]) in
  let r := promptUser (Some (buttonHandler schemaCodeDownloadDocUrl)) bursts
             (newSession quickPick) in
  match outcome r with
  | None => mkTemplatePrompt this' quickPick (after r) None []
  | Some (Rejected reason) =>
      mkTemplatePrompt this' quickPick (after r) (Some (Rejected reason)) []
  | Some (Fulfilled choices) =>
      let (val, log) := verifySinglePickerOutput choices in
      mkTemplatePrompt this' quickPick (after r)
        (Some (Fulfilled (option_map label val))) log
  end.

(** A call of [promptUserForTemplate]: its arguments and what the user does. *)
Definition TemplateCall : Type :=
  (option Runtime * option SamLambdaTemplate) * list (list (UiEvent QuickPickItem)).

(** Successive calls on the same context object: the labels each call
    offers, and the context after the last one. *)
Fixpoint replay (this : DefaultCreateNewSamAppWizardContext) (calls : list TemplateCall)
  : list (list string) * DefaultCreateNewSamAppWizardContext :=
  match calls with
  | [] => ([], this)
  | ((rt, lang), bursts) :: rest =>
      let r := promptUserForTemplate this rt lang bursts in
      let (offers, final_context) := replay (context_after r) rest in
      (map label (items (created r)) :: offers, final_context)
  end.

End DefaultContext.

(* ================================================================= *)
(** ** What each step relies on *)

(** The three fields of the schema branch hold a truthy value. *)
Definition schema_fields_set (w : CreateNewSamAppWizard) : Prop :=
  Js.truthy (region w) = true /\
  Js.truthy (registryName w) = true /\
  Js.truthy (schemaName w) = true.

(** The fields that are set whenever the step is entered, in a run that
    starts at [RUNTIME]: the ones the step passes on with a non-null
    assertion, and the ones [getResult] will need. *)
Definition step_ready (s : WizardStep) (w : CreateNewSamAppWizard) : Prop :=
  match s with
  | RUNTIME => True
  | TEMPLATE => Js.truthy (runtime w) = true
  | REGION =>
      Js.truthy (runtime w) = true /\ template w = Some "eventBridge-schema-app"
  | REGISTRY =>
      Js.truthy (runtime w) = true /\ template w = Some "eventBridge-schema-app" /\
      Js.truthy (region w) = true
  | SCHEMA =>
      Js.truthy (runtime w) = true /\ template w = Some "eventBridge-schema-app" /\
      Js.truthy (region w) = true /\ Js.truthy (registryName w) = true
  | LOCATION =>
      Js.truthy (runtime w) = true /\ Js.truthy (template w) = true /\
      (template w = Some "eventBridge-schema-app" -> schema_fields_set w)
  | NAME =>
      Js.truthy (runtime w) = true /\ Js.truthy (template w) = true /\
      (template w = Some "eventBridge-schema-app" -> schema_fields_set w) /\
      Js.truthy_obj (location w) = true
  end.

(* ================================================================= *)
(** ** The validator of [promptUserForName] *)

(** [value.includes(path.sep)]; [path.sep] is a single character. *)
Fixpoint includes (value : string) (sep : ascii) : bool :=
  match value with
  | EmptyString => false
  | String c rest => Ascii.eqb c sep || includes rest sep
  end.

(** The [onValidateInput] callback: the error message, or [undefined] when
    the value is accepted.  [localize] is taken to give the default text with
    its placeholder filled in. *)
Definition onValidateInput (sep : ascii) (value : string) : option string :=
  if negb (Js.truthy_string value)
  then Some "Application name cannot be empty"
  else if includes value sep
       then Some ("The path separator (" ++ String sep ""
                  ++ ") is not allowed in application names")%string
       else None.

(* ================================================================= *)
(** ** What an event passes to [resolve] or [reject] *)

Section Decisions.
Variable T : Type.

(** The first call of [resolve] or [reject] among the actions of a button
    handler. *)
Fixpoint first_settlement (actions : list (HandlerAction T))
  : option (Settlement (option (list T))) :=
  match actions with
  | [] => None
  | CallResolve v :: _ => Some (Fulfilled v)
  | CallReject reason :: _ => Some (Rejected reason)
  | OpenExternal _ :: rest => first_settlement rest
  end.

(** How an event settles the pending promise of [promptUser] when the
    selection is [sel]; [None] for an event that settles nothing. *)
Definition decision (h : option (ButtonHandler T)) (sel : list T) (ev : UiEvent T)
  : option (Settlement (option (list T))) :=
  match ev with
  | EvSelect _ => None
  | EvAccept => Some (Fulfilled (Some sel))
  | EvHide => Some (Fulfilled None)
  | EvButton b =>
      match h with
      | Some handler => first_settlement (handler b)
      | None => None
      end
  end.

(** The listeners [promptUser] has registered are on the widget. *)
Definition prompt_listening (h : option (ButtonHandler T)) (s : Session T) : Prop :=
  Exists (fun sub => sub_kind sub = OnDidAccept /\
                     sub_callback sub = ResolveWithSelection) (listeners s) /\
  Exists (fun sub => sub_kind sub = OnDidHide /\
                     sub_callback sub = ResolveWithUndefined) (listeners s) /\
  (forall handler, h = Some handler ->
     Exists (fun sub => sub_kind sub = OnDidTriggerButton /\
                        sub_callback sub = CallButtonHandler handler) (listeners s)).

(** An action that calls [reject]. *)
Definition rejects (a : HandlerAction T) : bool :=
  match a with
  | CallReject _ => true
  | _ => false
  end.

(** The button handler, if there is one, never calls [reject]. *)
Definition never_rejects (h : option (ButtonHandler T)) : Prop :=
  forall handler b, h = Some handler -> existsb rejects (handler b) = false.

(** The promise is pending or fulfilled. *)
Definition not_rejected (p : Promise (option (list T))) : Prop :=
  forall reason, settlement p <> Some (Rejected reason).

End Decisions.

(* ================================================================= *)
(** ** [DefaultSamCliConfiguration] *)

Module SamCliConfiguration.

(** [vscode.ConfigurationTarget]. *)
Inductive ConfigurationTarget :=
| TargetGlobal
| TargetWorkspace
| TargetWorkspaceFolder.

(** The interface [SettingsConfiguration], over the state [S] of the settings
    it reads and writes. *)
Record SettingsConfiguration (S : Type) := mkSettings {
  readSetting : S -> string -> option string;
  writeSetting : S -> string -> option string -> ConfigurationTarget -> S
}.

(** A setting that has been written is read back. *)
Definition reads_back {S : Type} (configuration : SettingsConfiguration S) : Prop :=
  forall (s : S) (key : string) (v : option string) (t : ConfigurationTarget),
    readSetting configuration (writeSetting configuration s key v t) key = v.

Definition CONFIGURATION_KEY_SAMCLI_LOCATION : string := "samcli.location".

Section Configuration.
Variable S : Type.
Variable _configuration : SettingsConfiguration S.

(** [filesystemUtilities.fileExists] and what
    [this._samCliLocationProvider.getLocation()] resolves to. *)
Variable fileExists : string -> bool.
Variable detectedLocation : option string.

Definition getSamCliLocation (s : S) : option string :=
  readSetting _configuration s CONFIGURATION_KEY_SAMCLI_LOCATION.

Definition setSamCliLocation (location : option string) (s : S) : S :=
  writeSetting _configuration s CONFIGURATION_KEY_SAMCLI_LOCATION location TargetGlobal.

Definition initialize (s : S) : S :=
  let configLocation := getSamCliLocation s in
  match configLocation with
  | Some path =>
      if Js.truthy_string path
      then (if fileExists path then s else setSamCliLocation detectedLocation s)
      else setSamCliLocation detectedLocation s
  | None => setSamCliLocation detectedLocation s
  end.

End Configuration.

(** Settings kept as a function from keys to values; for examples. *)
Definition functionSettings : SettingsConfiguration (string -> option string) :=
  {| readSetting := fun s key => s key;
     writeSetting := fun s key v _ => fun k => if String.eqb k key then v else s k |}.

End SamCliConfiguration.

(* ================================================================= *)
(** ** [getCoreFileName] *)

(** [s.split(sep)] for a separator of one character: the segments between
    the occurrences of [sep], at least one. *)
Fixpoint split (s : string) (sep : ascii) : list string :=
  match s with
  | EmptyString => [""]
  | String c rest =>
      if Ascii.eqb c sep then "" :: split rest sep
      else match split rest sep with
           | [] => [String c ""]
           | segment :: segments => String c segment :: segments
           end
  end.

(** [segments.join(sep)]. *)
Fixpoint join (segments : list string) (sep : ascii) : string :=
  match segments with
  | [] => ""
  | [segment] => segment
  | segment :: rest => (segment ++ String sep (join rest sep))%string
  end.

(** [parsedName[parsedName.length - 1]] of [schemaName.split('@')]. *)
Definition getCoreFileName (schemaName : string) : string :=
  last (split schemaName "@"%char) "".

(* ================================================================= *)
(** * Properties *)

(* ================================================================= *)
(** ** Truthiness *)

Lemma truthy_Some (x : option string) :
  Js.truthy x = true -> exists s, x = Some s /\ s <> "".
Proof.
  destruct x as [s|]; simpl; [|discriminate].
  unfold Js.truthy_string. intros H. exists s. split; [reflexivity|].
  intros ->. discriminate.
Qed.

Lemma truthy_obj_Some {A : Type} (x : option A) :
  Js.truthy_obj x = true -> exists a, x = Some a.
Proof. destruct x; simpl; intros H; [eauto | discriminate]. Qed.

Lemma strict_eq_true (x : option string) (lit : string) :
  Js.strict_eq x lit = true -> x = Some lit.
Proof.
  destruct x as [s|]; simpl; [|discriminate].
  intros H. apply String.eqb_eq in H. now subst.
Qed.

Lemma strict_eq_false (x : option string) (lit : string) :
  Js.strict_eq x lit = false -> x <> Some lit.
Proof.
  destruct x as [s|]; simpl; [|discriminate].
  intros H E. injection E as ->. rewrite String.eqb_refl in H. discriminate.
Qed.

(* ================================================================= *)
(** ** [getResult] *)

Lemma mandatory_missing_false (w : CreateNewSamAppWizard) :
  mandatory_missing w = false <-> mandatory_set w.
Proof.
  unfold mandatory_missing, mandatory_set.
  destruct (Js.truthy (runtime w)), (Js.truthy (template w)),
    (Js.truthy_obj (location w)), (Js.truthy (name w)); simpl;
    intuition discriminate.
Qed.

Lemma mandatory_absent_missing (w : CreateNewSamAppWizard) :
  mandatory_absent w -> mandatory_missing w = true.
Proof.
  unfold mandatory_absent, mandatory_missing.
  intros [H | [H | [H | H]]]; rewrite H; simpl;
    repeat rewrite orb_true_r; reflexivity.
Qed.

Lemma getResult_set (w : CreateNewSamAppWizard) :
  mandatory_set w -> getResult w = Some (response_of w).
Proof.
  intros H. unfold getResult.
  now rewrite (proj2 (mandatory_missing_false w) H).
Qed.

Lemma getResult_absent (w : CreateNewSamAppWizard) :
  mandatory_absent w -> getResult w = None.
Proof.
  intros H. unfold getResult. now rewrite (mandatory_absent_missing H).
Qed.

Lemma getResult_Some (w : CreateNewSamAppWizard) (r : CreateNewSamAppWizardResponse) :
  getResult w = Some r -> mandatory_set w /\ r = response_of w.
Proof.
  unfold getResult. destruct (mandatory_missing w) eqn:E; [discriminate|].
  intros H. injection H as <-. split; [now apply mandatory_missing_false | reflexivity].
Qed.

(* ================================================================= *)
(** ** The wizard *)

Section WizardFacts.
Variable C : Type.
Variable context : CreateNewSamAppWizardContext C.

(** A step assigns the answer of its prompt to its own field and to no
    other. *)
Lemma call_step_assigns (s : WizardStep) (w : CreateNewSamAppWizard) (c : C)
  (w' : CreateNewSamAppWizard) (c' : C) (next : option WizardStep) :
  call_step context s w c = ((w', c'), next) ->
  owned_field s w' = prompt_answer context s w c /\
  other_fields s w' = other_fields s w.
Proof.
  destruct s; simpl;
    unfold RUNTIME_step, TEMPLATE_step, REGION_step, REGISTRY_step,
      SCHEMA_step, LOCATION_step, NAME_step;
    match goal with
    | |- context [let (_, _) := ?p in _] => destruct p as [c1 v]
    end; simpl; intros H; injection H as <- <- <-; split; reflexivity.
Qed.

(** X4.  A step sends the wizard back to an earlier step only when its own
    prompt was cancelled, and its field then holds that falsy answer: the
    value stored there before is gone. *)
Lemma backward_only_on_cancel (later earlier : WizardStep)
  (w : CreateNewSamAppWizard) (c : C) (w' : CreateNewSamAppWizard) (c' : C) :
  call_step context later w c = ((w', c'), Some earlier) ->
  step_rank earlier < step_rank later ->
  match owned_field later w' with
  | FString v => Js.truthy v = false
  | FUri v => Js.truthy_obj v = false
  end.
Proof.
  destruct later; simpl;
    unfold RUNTIME_step, TEMPLATE_step, REGION_step, REGISTRY_step,
      SCHEMA_step, LOCATION_step, NAME_step;
    match goal with
    | |- context [let (_, _) := ?p in _] => destruct p as [c1 v]
    end; simpl;
    try destruct (Js.strict_eq v "eventBridge-schema-app");
    try destruct (Js.truthy v) eqn:Ev;
    try destruct (Js.truthy_obj v) eqn:Ev; simpl;
    try destruct (Js.strict_eq (template w) "eventBridge-schema-app");
    intros H; inversion H; subst; simpl in *; intros;
    solve [lia | assumption | reflexivity].
Qed.

(** [NAME] returns [undefined] exactly when the name given is truthy. *)
Lemma NAME_step_undefined (w : CreateNewSamAppWizard) (c : C) :
  snd (NAME_step context w c) = None <->
  Js.truthy (snd (promptUserForName context c)) = true.
Proof.
  unfold NAME_step. destruct (promptUserForName context c) as [c' v]; simpl.
  destruct (Js.truthy v); split; intros H; congruence.
Qed.

End WizardFacts.

(** C7.  [verifySinglePickerOutput]: [undefined] or no item gives
    [undefined]; exactly one item gives that item; two or more items give
    [undefined] and one warning in the log. *)
Theorem verifySinglePickerOutput_cases :
  forall (T : Type) (choices : option (list T)),
    match choices with
    | None => verifySinglePickerOutput choices = (None, [])
    | Some [] => verifySinglePickerOutput choices = (None, [])
    | Some [x] => verifySinglePickerOutput choices = (Some x, [])
    | Some (x :: y :: rest) =>
        verifySinglePickerOutput choices
        = (None, [Warn (unexpected_count_message (2 + List.length rest))])
    end.
Proof.
  intros T [[|x [|y rest]]|]; reflexivity.
Qed.

(** C8.  When a later step sends the wizard back to an earlier step, running
    the earlier step again stores the new answer of its prompt in the field it
    owns, whole, in place of the value stored before, and leaves every other
    field as it was. *)
Theorem backward_reentry_overwrites :
  forall (C : Type) (context : CreateNewSamAppWizardContext C)
    (later earlier : WizardStep)
    (w : CreateNewSamAppWizard) (c : C) (w1 : CreateNewSamAppWizard) (c1 : C)
    (w2 : CreateNewSamAppWizard) (c2 : C) (next : option WizardStep),
    call_step context later w c = ((w1, c1), Some earlier) ->
    step_rank earlier < step_rank later ->
    call_step context earlier w1 c1 = ((w2, c2), next) ->
    owned_field earlier w2 = prompt_answer context earlier w1 c1 /\
    other_fields earlier w2 = other_fields earlier w1.
Proof.
  intros C context later earlier w c w1 c1 w2 c2 next _ _ Hre.
  exact (call_step_assigns context _ _ _ Hre).
Qed.

Lemma backward_reentry_overwrites_witness :
  owned_field RUNTIME
    (mkWizard (Some "python3.7") None None None None None None)
  = prompt_answer scriptedContext RUNTIME
      (mkWizard (Some "nodejs12.x") None None None None None None)
      [Some "python3.7"] /\
  other_fields RUNTIME (mkWizard (Some "python3.7") None None None None None None)
  = other_fields RUNTIME (mkWizard (Some "nodejs12.x") None None None None None None).
Proof.
  apply (@backward_reentry_overwrites _ scriptedContext TEMPLATE RUNTIME
           (mkWizard (Some "nodejs12.x") None None None None None None)
           [None; Some "python3.7"]
           (mkWizard (Some "nodejs12.x") None None None None None None)
           [Some "python3.7"]
           (mkWizard (Some "python3.7") None None None None None None)
           [] (Some TEMPLATE)).
  - reflexivity.
  - simpl. lia.
  - reflexivity.
Defined.

(** The scenario of the spec: runtime chosen, template prompt cancelled,
    runtime chosen again, then the remaining prompts answered.  The runtime
    field holds the second choice only. *)
Example run_back_and_choose_again :
  option_map (fun r => runtime (fst (final r)))
    (run scriptedContext 6
       [Some "nodejs12.x"; None; Some "python3.7"; Some "helloworld";
        Some "/work"; Some "app"])
  = Some (Some "python3.7").
Proof. reflexivity. Qed.

(** C9.  [getResult] tests runtime, template, location and name and nothing
    else; the three schema fields are copied as they are.  On the run
    RUNTIME, TEMPLATE, LOCATION, NAME of a wizard just constructed (the
    template chosen is then not ['eventBridge-schema-app']), when [NAME]
    returns [undefined] the fields are such that [getResult] gives a result
    object whose region, registryName and schemaName are [undefined]. *)
Theorem getResult_leaves_schema_fields_unchecked :
  (forall w : CreateNewSamAppWizard,
      (exists r, getResult w = Some r) <-> mandatory_set w) /\
  (forall (w : CreateNewSamAppWizard) (rg rn sn : option string),
      getResult (set_region rg (set_registryName rn (set_schemaName sn w))) = None
      <-> getResult w = None) /\
  (forall (C : Type) (context : CreateNewSamAppWizardContext C) (c0 : C)
      (w : CreateNewSamAppWizard) (c : C) (w' : CreateNewSamAppWizard) (c' : C),
      reaches (wizard_invoke context) startStep (newWizard, c0)
        [RUNTIME; TEMPLATE; LOCATION] NAME (w, c) ->
      call_step context NAME w c = ((w', c'), None) ->
      template w' <> Some "eventBridge-schema-app" /\
      exists r, getResult w' = Some r /\
        r_region r = None /\ r_registryName r = None /\ r_schemaName r = None).
Proof.
  split; [|split].
  - intros w. split.
    + intros [r H]. exact (proj1 (@getResult_Some w r H)).
    + intros H. exists (response_of w). exact (getResult_set H).
  - intros w rg rn sn. unfold getResult, mandatory_missing. simpl.
    destruct (negb (Js.truthy (runtime w)) || negb (Js.truthy (template w))
              || negb (Js.truthy_obj (location w)) || negb (Js.truthy (name w)));
      split; intros H; (reflexivity || discriminate).
  - intros C context c0 w c w' c' Hreach Hname.
    inversion Hreach as [|? ? s1 st1 ? ? ? H1 R1]; subst; clear Hreach.
    inversion R1 as [|? ? s2 st2 ? ? ? H2 R2]; subst; clear R1.
    inversion R2 as [|? ? s3 st3 ? ? ? H3 R3]; subst; clear R2.
    inversion R3; subst; clear R3.
    unfold wizard_invoke in H1, H2, H3. simpl in H1, H2, H3, Hname.
    unfold RUNTIME_step, TEMPLATE_step, LOCATION_step, NAME_step in *.
    simpl in H1.
    destruct (promptUserForRuntime context c0 None) as [ca va].
    destruct (Js.truthy va) eqn:Ta; simpl in H1; inversion H1; subst; clear H1.
    simpl in H2.
    destruct (promptUserForTemplate context ca va None) as [cb vb].
    destruct (Js.strict_eq vb "eventBridge-schema-app") eqn:Eb;
      simpl in H2; [inversion H2|].
    destruct (Js.truthy vb) eqn:Tb; simpl in H2; inversion H2; subst; clear H2.
    simpl in H3.
    destruct (promptUserForLocation context cb) as [cc vc].
    destruct (Js.truthy_obj vc) eqn:Tc; simpl in H3.
    2: { destruct (Js.strict_eq vb "eventBridge-schema-app"); inversion H3. }
    inversion H3; subst; clear H3.
    simpl in Hname.
    destruct (promptUserForName context c) as [cd vd].
    destruct (Js.truthy vd) eqn:Td; simpl in Hname; inversion Hname; subst; clear Hname.
    simpl. split.
    + exact (strict_eq_false Eb).
    + eexists. split.
      * apply getResult_set. unfold mandatory_set; simpl. auto.
      * simpl. auto.
Qed.

Lemma getResult_leaves_schema_fields_unchecked_witness :
  template (mkWizard (Some "nodejs12.x") (Some "helloworld") None None None
              (Some (mkUri "/work")) (Some "app"))
  <> Some "eventBridge-schema-app" /\
  exists r,
    getResult (mkWizard (Some "nodejs12.x") (Some "helloworld") None None None
                 (Some (mkUri "/work")) (Some "app")) = Some r /\
    r_region r = None /\ r_registryName r = None /\ r_schemaName r = None.
Proof.
  apply (proj2 (proj2 getResult_leaves_schema_fields_unchecked)
           _ scriptedContext
           [Some "nodejs12.x"; Some "helloworld"; Some "/work"; Some "app"]
           (mkWizard (Some "nodejs12.x") (Some "helloworld") None None None
              (Some (mkUri "/work")) None)
           [Some "app"]
           (mkWizard (Some "nodejs12.x") (Some "helloworld") None None None
              (Some (mkUri "/work")) (Some "app"))
           []).
  - eapply reaches_next; [reflexivity|].
    eapply reaches_next; [reflexivity|].
    eapply reaches_next; [reflexivity|].
    apply reaches_here.
  - reflexivity.
Defined.

(** A run that went through the schema branch and came back can end with the
    region set and the registry and schema names [undefined]. *)
Example getResult_after_schema_branch_abandoned :
  option_map (fun r => getResult (fst (final r)))
    (run scriptedContext 8
       [Some "java8"; Some "eventBridge-schema-app"; Some "us-east-1"; None;
        Some "helloworld"; Some "/work"; Some "app"])
  = Some (Some (mkResponse (Some "java8") (Some "helloworld") (Some "us-east-1")
                  None None (Some (mkUri "/work")) (Some "app"))).
Proof. reflexivity. Qed.

(* ================================================================= *)
(** ** Promises and events *)

Lemma settle_sticky {A : Type} (x y : Settlement A) (p : Promise A) :
  settlement p = Some x -> settlement (settle y p) = Some x.
Proof. unfold settle. intros H. rewrite H. reflexivity. Qed.

Lemma settle_pending {A : Type} (y : Settlement A) (p : Promise A) :
  settlement p = None -> settlement (settle y p) = Some y.
Proof. unfold settle. intros H. rewrite H. reflexivity. Qed.

Lemma settle_is_settled {A : Type} (y : Settlement A) (p : Promise A) :
  is_settled (settle y p) = true.
Proof.
  unfold is_settled, settle. destruct (settlement p) eqn:E; reflexivity.
Qed.

Lemma fold_left_preserves {A B : Type} (f : A -> B -> A) (P : A -> Prop) :
  (forall a b, P a -> P (f a b)) ->
  forall l a, P a -> P (fold_left f l a).
Proof. intros H l. induction l as [|b l IH]; simpl; auto. Qed.

Section EventFacts.
Variable T : Type.
Implicit Types (s : Session T) (ev : UiEvent T) (cb : Callback T).

Lemma same_widget_refl s : same_widget s s.
Proof. repeat split. Qed.

Lemma same_widget_trans s1 s2 s3 :
  same_widget s1 s2 -> same_widget s2 s3 -> same_widget s1 s3.
Proof.
  unfold same_widget. intros (A1 & A2 & A3) (B1 & B2 & B3).
  repeat split; congruence.
Qed.

Lemma run_action_same_widget (a : HandlerAction T) s :
  same_widget s (run_action a s).
Proof. destruct a; repeat split. Qed.

Lemma run_callback_same_widget ev cb s :
  same_widget s (run_callback ev cb s).
Proof.
  destruct cb as [| |h|]; simpl; [repeat split | repeat split | | repeat split].
  destruct ev; try apply same_widget_refl.
  apply fold_left_preserves with (P := same_widget s); [|apply same_widget_refl].
  intros acc x' Ha. eapply same_widget_trans; [exact Ha | apply run_action_same_widget].
Qed.

Lemma fire_same_widget (k : EventKind) ev s :
  same_widget s (fire k ev s).
Proof.
  unfold fire.
  apply fold_left_preserves with (P := same_widget s); [|apply same_widget_refl].
  intros acc x' Ha. eapply same_widget_trans; [exact Ha | apply run_callback_same_widget].
Qed.

Lemma deliver_same_subscriptions ev s :
  same_subscriptions s (deliver ev s).
Proof.
  destruct ev; simpl.
  - repeat split.
  - destruct (fire_same_widget OnDidAccept EvAccept s) as (A & B & D).
    unfold same_subscriptions. rewrite A, B, D. repeat split.
  - destruct (fire_same_widget OnDidHide EvHide
                (set_picker (set_visible false (picker s)) s)) as (A & B & D).
    unfold same_subscriptions. rewrite A, B, D. repeat split.
  - destruct (fire_same_widget OnDidTriggerButton (EvButton b) s) as (A & B & D).
    unfold same_subscriptions. rewrite A, B, D. repeat split.
Qed.

Lemma same_subscriptions_trans s1 s2 s3 :
  same_subscriptions s1 s2 -> same_subscriptions s2 s3 -> same_subscriptions s1 s3.
Proof.
  unfold same_subscriptions. intros (A1 & A2 & A3 & A4) (B1 & B2 & B3 & B4).
  repeat split; congruence.
Qed.

Lemma deliver_all_same_subscriptions (burst : list (UiEvent T)) s :
  same_subscriptions s (deliver_all burst s).
Proof.
  unfold deliver_all.
  apply fold_left_preserves with (P := same_subscriptions s); [|repeat split].
  intros acc x' Ha. eapply same_subscriptions_trans; [exact Ha | apply deliver_same_subscriptions].
Qed.

(** Once settled, the promise of [promptUser] keeps its settlement. *)
Lemma run_action_sticky (a : HandlerAction T) s x :
  settlement (response s) = Some x ->
  settlement (response (run_action a s)) = Some x.
Proof. destruct a; simpl; intros H; try apply settle_sticky; exact H. Qed.

Lemma run_callback_sticky ev cb s x :
  settlement (response s) = Some x ->
  settlement (response (run_callback ev cb s)) = Some x.
Proof.
  destruct cb as [| |h|]; simpl; intros H; try (apply settle_sticky; exact H); try exact H.
  destruct ev; try exact H.
  apply fold_left_preserves
    with (P := fun s' => settlement (response s') = Some x); [|exact H].
  intros acc x' Ha. apply run_action_sticky. exact Ha.
Qed.

Lemma fire_sticky (k : EventKind) ev s x :
  settlement (response s) = Some x ->
  settlement (response (fire k ev s)) = Some x.
Proof.
  intros H. unfold fire.
  apply fold_left_preserves
    with (P := fun s' => settlement (response s') = Some x); [|exact H].
  intros acc x' Ha. apply run_callback_sticky. exact Ha.
Qed.

Lemma deliver_sticky ev s x :
  settlement (response s) = Some x ->
  settlement (response (deliver ev s)) = Some x.
Proof.
  destruct ev; simpl; intros H; try exact H; apply fire_sticky; exact H.
Qed.

Lemma deliver_all_sticky (burst : list (UiEvent T)) s x :
  settlement (response s) = Some x ->
  settlement (response (deliver_all burst s)) = Some x.
Proof.
  intros H. unfold deliver_all.
  apply fold_left_preserves
    with (P := fun s' => settlement (response s') = Some x); [|exact H].
  intros acc x' Ha. apply deliver_sticky. exact Ha.
Qed.

End EventFacts.

(* ================================================================= *)
(** ** [promptUser] *)

Section PromptUserFacts.
Variable T : Type.
Implicit Types (s : Session T) (ev : UiEvent T) (h : option (ButtonHandler T)).

Lemma promptUser_unfold h (bursts : list (list (UiEvent T))) s :
  promptUser h bursts s =
  let (s5, rest) := await_response bursts (prompt_shown h s) in
  match settlement (response s5) with
  | None => mkPromptReturn s5 None rest
  | Some r =>
      mkPromptReturn
        (hide (dispose_all (map (@sub_id T) (prompt_subscriptions h (nextSubscription s))) s5))
        (Some r) rest
  end.
Proof.
  unfold promptUser, prompt_shown, subscribe, show, set_response, set_picker.
  destruct h as [handler|]; simpl;
    repeat rewrite <- app_assoc; simpl;
    repeat (rewrite Nat.add_succ_r); rewrite Nat.add_0_r; reflexivity.
Qed.

Lemma await_response_same_subscriptions (bursts : list (list (UiEvent T))) s :
  same_subscriptions s (fst (await_response bursts s)).
Proof.
  revert s. induction bursts as [|b rest IH]; intros s; simpl.
  - repeat split.
  - destruct (is_settled (response (deliver_all b s))); simpl.
    + apply deliver_all_same_subscriptions.
    + eapply same_subscriptions_trans; [apply deliver_all_same_subscriptions | apply IH].
Qed.

Lemma filter_keeps_older (l : list (Subscription T)) (m : nat) :
  Forall (fun sub => sub_id sub < m) l ->
  filter (fun sub => negb (Nat.eqb (sub_id sub) m)) l = l.
Proof.
  induction 1 as [|sub l Hsub _ IH]; simpl; [reflexivity|].
  destruct (Nat.eqb_spec (sub_id sub) m) as [E|E]; [lia|]. simpl. now rewrite IH.
Qed.

Lemma dispose_appended (l : list (Subscription T)) (id : nat) (k : EventKind)
  (cb : Callback T) (tail : list (Subscription T)) s :
  listeners s = l ++ mkSub id k cb :: tail ->
  Forall (fun x => sub_id x < id) l ->
  Forall (fun x => id < sub_id x) tail ->
  listeners (dispose id s) = l ++ tail.
Proof.
  intros Hl Hold Hnew. unfold dispose. simpl. rewrite Hl.
  rewrite filter_app. rewrite (filter_keeps_older Hold). simpl.
  rewrite Nat.eqb_refl. simpl. f_equal.
  clear Hl. induction Hnew as [|x tail Hx _ IH]; simpl; [reflexivity|].
  destruct (Nat.eqb_spec (sub_id x) id) as [E|E]; [lia|]. simpl. now rewrite IH.
Qed.

Lemma dispose_same_rest (id : nat) s :
  picker (dispose id s) = picker s /\ response (dispose id s) = response s /\
  didComplete (dispose id s) = didComplete s /\
  nextSubscription (dispose id s) = nextSubscription s.
Proof. repeat split. Qed.

Lemma dispose_all_same_rest (ids : list nat) s :
  picker (dispose_all ids s) = picker s /\ response (dispose_all ids s) = response s /\
  didComplete (dispose_all ids s) = didComplete s.
Proof.
  unfold dispose_all.
  apply fold_left_preserves
    with (P := fun s' => picker s' = picker s /\ response s' = response s /\
                         didComplete s' = didComplete s);
    [|repeat split].
  intros acc id (A & B & D). repeat split; simpl; assumption.
Qed.

(** Disposing of the disposables of [promptUser] leaves the listeners that
    were there before the call. *)
Lemma dispose_all_prompt_subscriptions h (before : list (Subscription T)) (n : nat) s :
  Forall (fun sub => sub_id sub < n) before ->
  listeners s = before ++ prompt_subscriptions h n ->
  listeners (dispose_all (map (@sub_id T) (prompt_subscriptions h n)) s) = before.
Proof.
  intros Hold Hl.
  assert (Hold1 : Forall (fun sub : Subscription T => sub_id sub < S n) before)
    by (eapply Forall_impl; [|exact Hold]; simpl; intros; lia).
  assert (Hold2 : Forall (fun sub : Subscription T => sub_id sub < S (S n)) before)
    by (eapply Forall_impl; [|exact Hold]; simpl; intros; lia).
  destruct h as [handler|]; simpl in *.
  - assert (H1 : listeners (dispose n s)
                 = before ++ [mkSub (S n) OnDidHide ResolveWithUndefined;
                              mkSub (S (S n)) OnDidTriggerButton (CallButtonHandler handler)])
      by (eapply dispose_appended;
          [exact Hl | exact Hold | repeat constructor; simpl; lia]).
    assert (H2 : listeners (dispose (S n) (dispose n s))
                 = before ++ [mkSub (S (S n)) OnDidTriggerButton (CallButtonHandler handler)])
      by (eapply dispose_appended;
          [exact H1 | exact Hold1 | repeat constructor; simpl; lia]).
    assert (H3 : listeners (dispose (S (S n)) (dispose (S n) (dispose n s))) = before ++ [])
      by (eapply dispose_appended; [exact H2 | exact Hold2 | constructor]).
    rewrite app_nil_r in H3. exact H3.
  - assert (H1 : listeners (dispose n s)
                 = before ++ [mkSub (S n) OnDidHide ResolveWithUndefined])
      by (eapply dispose_appended;
          [exact Hl | exact Hold | repeat constructor; simpl; lia]).
    assert (H2 : listeners (dispose (S n) (dispose n s)) = before ++ [])
      by (eapply dispose_appended; [exact H1 | exact Hold1 | constructor]).
    rewrite app_nil_r in H2. exact H2.
Qed.

Lemma hide_hidden s :
  visible (picker (hide s)) = false /\ listeners (hide s) = listeners s.
Proof.
  unfold hide. destruct (visible (picker s)) eqn:E; [|split; [exact E | reflexivity]].
  simpl.
  destruct (fire_same_widget OnDidHide EvHide
              (set_picker (set_visible false (picker s)) s)) as (A & B & _).
  rewrite A, B. split; reflexivity.
Qed.

Lemma hide_sticky s x :
  settlement (response s) = Some x -> settlement (response (hide s)) = Some x.
Proof.
  intros H. unfold hide. destruct (visible (picker s)); [|exact H].
  apply deliver_sticky. exact H.
Qed.

End PromptUserFacts.

(** C4.  Whenever the promise of [promptUser] is settled, by an accept
    event, a hide event, or a button handler that resolves or rejects, the
    call ends with every listener it registered disposed of (the listeners on
    the widget are those that were there before the call) and with the widget
    hidden. *)
Theorem promptUser_settled_releases :
  forall (T : Type) (h : option (ButtonHandler T))
    (bursts : list (list (UiEvent T))) (s : Session T)
    (x : Settlement (option (list T))),
    well_formed s ->
    outcome (promptUser h bursts s) = Some x ->
    listeners (after (promptUser h bursts s)) = listeners s /\
    visible (picker (after (promptUser h bursts s))) = false.
Proof.
  intros T h bursts s x Hwf. rewrite promptUser_unfold.
  pose proof (await_response_same_subscriptions bursts (prompt_shown h s)) as Hsame.
  destruct (await_response bursts (prompt_shown h s)) as [s5 rest]. simpl in Hsame.
  destruct (settlement (response s5)) as [r|]; cbn [after outcome]; [|discriminate].
  intros _. destruct Hsame as (Hl & _).
  destruct (hide_hidden
              (dispose_all (map (@sub_id T) (prompt_subscriptions h (nextSubscription s))) s5))
    as (Hv & Hl').
  split; [|exact Hv].
  rewrite Hl'. apply dispose_all_prompt_subscriptions; [exact Hwf | exact Hl].
Qed.

Lemma promptUser_settled_releases_witness :
  listeners
    (after (promptUser (Some (fun _ : QuickInputButton => [CallReject "stop"]))
              [[EvButton Back]] (newSession (emptyQuickPick nat))))
  = listeners (newSession (emptyQuickPick nat)) /\
  visible
    (picker
       (after (promptUser (Some (fun _ : QuickInputButton => [CallReject "stop"]))
                 [[EvButton Back]] (newSession (emptyQuickPick nat)))))
  = false.
Proof.
  apply (@promptUser_settled_releases nat
           (Some (fun _ : QuickInputButton => [CallReject "stop"]))
           [[EvButton Back]] (newSession (emptyQuickPick nat)) (Rejected "stop")).
  - constructor.
  - reflexivity.
Defined.

Lemma fold_left_preserves_in {A B : Type} (f : A -> B -> A) (P : A -> Prop)
  (l : list B) :
  (forall a b, In b l -> P a -> P (f a b)) ->
  forall a, P a -> P (fold_left f l a).
Proof.
  induction l as [|b l IH]; simpl; intros H a Ha; [exact Ha|].
  apply IH; [intros a' b' Hin; apply H; now right | apply H; [now left | exact Ha]].
Qed.

Section FirstEvent.
Variable T : Type.
Variable h : option (ButtonHandler T).
Implicit Types (s : Session T) (ev : UiEvent T).

(** A quiet event leaves the promise of [promptUser] untouched. *)
Lemma run_callback_quiet (b : QuickInputButton) (sub : Subscription T) s :
  tame h sub ->
  sub_kind sub = OnDidTriggerButton ->
  quiet h (EvButton b) = true ->
  response (run_callback (EvButton b) (sub_callback sub) s) = response s.
Proof.
  unfold tame. destruct (sub_callback sub) as [| |handler|]; simpl;
    intros Ht Hk Hq; try congruence; try reflexivity.
  destruct Ht as [_ ->]. apply negb_true_iff in Hq.
  apply fold_left_preserves_in with (P := fun s' => response s' = response s);
    [|reflexivity].
  intros acc a Hin Hacc.
  destruct a as [v|r|u]; simpl; try exact Hacc.
  - exfalso. assert (existsb (@settles T) (handler b) = true)
      by (apply existsb_exists; exists (CallResolve v); split; [exact Hin | reflexivity]).
    congruence.
  - exfalso. assert (existsb (@settles T) (handler b) = true)
      by (apply existsb_exists; exists (CallReject r); split; [exact Hin | reflexivity]).
    congruence.
Qed.

Lemma deliver_quiet ev s :
  Forall (tame h) (listeners s) ->
  quiet h ev = true ->
  response (deliver ev s) = response s /\
  selectedItems (picker (deliver ev s))
  = selection_after [ev] (selectedItems (picker s)).
Proof.
  intros Htame Hq. destruct ev as [sel| | |b]; simpl in *; try discriminate.
  - split; reflexivity.
  - destruct (fire_same_widget OnDidTriggerButton (EvButton b) s) as (A & _).
    rewrite A. split; [|reflexivity].
    unfold fire.
    apply fold_left_preserves_in with (P := fun s' => response s' = response s);
      [|reflexivity].
    intros acc sub Hin Hacc. apply filter_In in Hin. destruct Hin as [Hin Hk].
    rewrite <- Hacc. apply run_callback_quiet; [|destruct (sub_kind sub); try discriminate; reflexivity|exact Hq].
    rewrite Forall_forall in Htame. now apply Htame.
Qed.

Lemma deliver_all_quiet (burst : list (UiEvent T)) s :
  Forall (tame h) (listeners s) ->
  forallb (quiet h) burst = true ->
  response (deliver_all burst s) = response s /\
  selectedItems (picker (deliver_all burst s))
  = selection_after burst (selectedItems (picker s)).
Proof.
  revert s. induction burst as [|ev burst IH]; intros s Htame Hq; simpl in *.
  - split; reflexivity.
  - apply andb_true_iff in Hq. destruct Hq as [Hev Hrest].
    destruct (deliver_quiet ev s Htame Hev) as (A & B).
    destruct (deliver_same_subscriptions ev s) as (L & _).
    assert (Htame' : Forall (tame h) (listeners (deliver ev s))) by (rewrite L; exact Htame).
    destruct (IH _ Htame' Hrest) as (A' & B').
    fold (deliver_all burst (deliver ev s)).
    rewrite A', B', A, B. split; reflexivity.
Qed.

(** Firing an event whose listener of the session is [c0]: the promise,
    pending before, is settled with what [c0] passes to [resolve]. *)
Lemma callbacks_decide (k : EventKind) ev (c0 : Callback T)
  (X : Settlement (option (list T))) (p : QuickPick T) (l : list (Subscription T)) :
  (forall s', picker s' = p ->
              response (run_callback ev c0 s') = settle X (response s')) ->
  Forall (fun sub => sub_kind sub = k ->
                     sub_callback sub = c0 \/ sub_callback sub = ResolveFalse) l ->
  Exists (fun sub => sub_kind sub = k /\ sub_callback sub = c0) l ->
  forall a, picker a = p -> settlement (response a) = None ->
  settlement
    (response
       (fold_left (fun acc sub => run_callback ev (sub_callback sub) acc)
          (filter (fun sub => EventKind_eqb (sub_kind sub) k) l) a))
  = Some X.
Proof.
  intros Hc0. induction l as [|sub l IH]; intros Hall Hex a Hp Hpending.
  - inversion Hex.
  - inversion Hall as [|? ? Hsub Hl]; subst. simpl.
    assert (Hsettled :
      sub_callback sub = c0 ->
      settlement
        (response
           (fold_left (fun acc sub0 => run_callback ev (sub_callback sub0) acc)
              (filter (fun sub0 => EventKind_eqb (sub_kind sub0) k) l)
              (run_callback ev (sub_callback sub) a))) = Some X).
    { intros Hc. rewrite Hc.
      apply fold_left_preserves
        with (P := fun s' => settlement (response s') = Some X).
      - intros acc x' Hacc. apply run_callback_sticky. exact Hacc.
      - rewrite (Hc0 a eq_refl). apply settle_pending. exact Hpending. }
    destruct (EventKind_eqb (sub_kind sub) k) eqn:Ek.
    + assert (Hk : sub_kind sub = k) by (destruct (sub_kind sub), k; simpl in Ek; congruence).
      simpl. destruct (Hsub Hk) as [Hc | Hc]; [exact (Hsettled Hc)|].
      inversion Hex as [? ? Hhd | ? ? Htail]; subst; [exact (Hsettled (proj2 Hhd))|].
      rewrite Hc. apply (IH Hl Htail); simpl; [reflexivity | exact Hpending].
    + inversion Hex as [? ? Hhd | ? ? Htail]; subst.
      * destruct Hhd as [Hk _]. subst k. destruct (sub_kind sub); simpl in Ek; discriminate.
      * apply (IH Hl Htail); [reflexivity | exact Hpending].
Qed.

Lemma fire_decides (k : EventKind) ev (c0 : Callback T)
  (X : Settlement (option (list T))) s :
  (forall s', picker s' = picker s ->
              response (run_callback ev c0 s') = settle X (response s')) ->
  Forall (fun sub => sub_kind sub = k ->
                     sub_callback sub = c0 \/ sub_callback sub = ResolveFalse)
    (listeners s) ->
  Exists (fun sub => sub_kind sub = k /\ sub_callback sub = c0) (listeners s) ->
  settlement (response s) = None ->
  settlement (response (fire k ev s)) = Some X.
Proof.
  intros Hc0 Hall Hex Hpending. unfold fire.
  eapply callbacks_decide; [exact Hc0 | exact Hall | exact Hex | reflexivity | exact Hpending].
Qed.

End FirstEvent.

Section FirstEventDecides.
Variable T : Type.
Variable h : option (ButtonHandler T).
Implicit Types (s : Session T) (ev : UiEvent T).

Lemma prompt_subscriptions_tame (n : nat) :
  Forall (tame h) (prompt_subscriptions h n).
Proof.
  unfold prompt_subscriptions.
  destruct h as [handler|]; repeat constructor.
Qed.

Lemma prompt_shown_tame s :
  foreign_only s -> Forall (tame h) (listeners (prompt_shown h s)).
Proof.
  intros Hf. simpl. apply Forall_app. split; [|apply prompt_subscriptions_tame].
  eapply Forall_impl; [|exact Hf]. intros sub Hsub. unfold tame. now rewrite Hsub.
Qed.

Lemma tame_accept (l : list (Subscription T)) :
  Forall (tame h) l ->
  Forall (fun sub => sub_kind sub = OnDidAccept ->
                     sub_callback sub = ResolveWithSelection \/
                     sub_callback sub = ResolveFalse) l.
Proof.
  intros H. eapply Forall_impl; [|exact H]. intros sub. unfold tame.
  destruct (sub_callback sub) as [| |handler|]; intros Ht Hk;
    [now left | congruence | destruct Ht; congruence | now right].
Qed.

Lemma tame_hide (l : list (Subscription T)) :
  Forall (tame h) l ->
  Forall (fun sub => sub_kind sub = OnDidHide ->
                     sub_callback sub = ResolveWithUndefined \/
                     sub_callback sub = ResolveFalse) l.
Proof.
  intros H. eapply Forall_impl; [|exact H]. intros sub. unfold tame.
  destruct (sub_callback sub) as [| |handler|]; intros Ht Hk;
    [congruence | now left | destruct Ht; congruence | now right].
Qed.

Lemma selection_after_app (a b : list (UiEvent T)) (init : list T) :
  selection_after (a ++ b) init = selection_after b (selection_after a init).
Proof. unfold selection_after. apply fold_left_app. Qed.

Lemma deliver_all_app (a b : list (UiEvent T)) s :
  deliver_all (a ++ b) s = deliver_all b (deliver_all a s).
Proof. unfold deliver_all. apply fold_left_app. Qed.

(** Turns of quiet events are consumed without settling the promise. *)
Lemma await_response_quiet (earlier rest : list (list (UiEvent T))) s :
  Forall (tame h) (listeners s) ->
  settlement (response s) = None ->
  forallb (forallb (quiet h)) earlier = true ->
  await_response (earlier ++ rest) s
  = await_response rest (deliver_all (List.concat earlier) s).
Proof.
  revert s. induction earlier as [|b earlier IH]; intros s Htame Hpending Hq; simpl in *.
  - reflexivity.
  - apply andb_true_iff in Hq. destruct Hq as [Hb Hrest].
    destruct (@deliver_all_quiet T h b s Htame Hb) as (A & _).
    destruct (deliver_all_same_subscriptions b s) as (L & _).
    unfold is_settled. rewrite A, Hpending.
    rewrite deliver_all_app. apply IH; [rewrite L; exact Htame | rewrite A; exact Hpending | exact Hrest].
Qed.

(** The first accept or hide event settles the promise; what follows in the
    same turn does not change it. *)
Lemma deliver_all_decisive (pre post : list (UiEvent T)) ev s :
  Forall (tame h) (listeners s) ->
  Exists (fun sub => sub_kind sub = OnDidAccept /\
                     sub_callback sub = ResolveWithSelection) (listeners s) ->
  Exists (fun sub => sub_kind sub = OnDidHide /\
                     sub_callback sub = ResolveWithUndefined) (listeners s) ->
  settlement (response s) = None ->
  forallb (quiet h) pre = true ->
  ev = EvAccept \/ ev = EvHide ->
  settlement (response (deliver_all (pre ++ ev :: post) s))
  = Some (Fulfilled
            (match ev with
             | EvHide => None
             | _ => Some (selection_after pre (selectedItems (picker s)))
             end)).
Proof.
  intros Htame Hacc Hhide Hpending Hq Hev.
  rewrite deliver_all_app. simpl.
  fold (deliver_all post (deliver ev (deliver_all pre s))).
  apply deliver_all_sticky.
  destruct (@deliver_all_quiet T h pre s Htame Hq) as (A & B).
  destruct (deliver_all_same_subscriptions pre s) as (L & _).
  set (s2 := deliver_all pre s) in *.
  destruct Hev as [-> | ->]; simpl.
  - rewrite <- B.
    apply fire_decides with (c0 := ResolveWithSelection).
    + intros s' Hp. simpl. rewrite Hp. reflexivity.
    + rewrite L. apply tame_accept. exact Htame.
    + rewrite L. exact Hacc.
    + rewrite A. exact Hpending.
  - apply fire_decides with (c0 := ResolveWithUndefined).
    + intros s' Hp. reflexivity.
    + simpl. rewrite L. apply tame_hide. exact Htame.
    + simpl. rewrite L. exact Hhide.
    + simpl. rewrite A. exact Hpending.
Qed.

End FirstEventDecides.

(** C3.  In a prompt session the first accept or hide event decides: after
    any events that settle nothing (changes of selection, buttons whose
    handler calls neither [resolve] nor [reject]), an accept event resolves
    the promise with the items selected at that moment, possibly none, and a
    hide event resolves it with [undefined]; whatever fires afterwards, in
    the same turn or later, the other event included, leaves that settlement
    in place. *)
Theorem promptUser_first_event_decides :
  forall (T : Type) (h : option (ButtonHandler T)) (s : Session T)
    (earlier : list (list (UiEvent T))) (pre post : list (UiEvent T))
    (ev : UiEvent T) (later : list (list (UiEvent T))),
    foreign_only s ->
    forallb (forallb (quiet h)) earlier = true ->
    forallb (quiet h) pre = true ->
    ev = EvAccept \/ ev = EvHide ->
    let r := promptUser h (earlier ++ (pre ++ ev :: post) :: later) s in
    outcome r
    = Some (Fulfilled
              (match ev with
               | EvHide => None
               | _ => Some (selection_after (List.concat earlier ++ pre)
                              (selectedItems (picker s)))
               end)) /\
    settlement (response (after r)) = outcome r /\
    remaining r = later.
Proof.
  intros T h s earlier pre post ev later Hf Hq Hpre Hev r. subst r.
  rewrite promptUser_unfold.
  pose proof (@prompt_shown_tame T h s Hf) as Htame.
  rewrite (@await_response_quiet T h earlier _ (prompt_shown h s) Htame eq_refl Hq).
  destruct (@deliver_all_quiet T h (List.concat earlier) (prompt_shown h s) Htame
              ltac:(rewrite forallb_forall in *; intros x Hx;
                    apply in_concat in Hx; destruct Hx as (b & Hb & Hxb);
                    specialize (Hq b Hb); rewrite forallb_forall in Hq; now apply Hq))
    as (A & B).
  destruct (deliver_all_same_subscriptions (List.concat earlier) (prompt_shown h s)) as (L & _).
  set (s1 := deliver_all (List.concat earlier) (prompt_shown h s)) in *.
  assert (Hdec :=
    @deliver_all_decisive T h pre post ev s1
      ltac:(rewrite L; exact Htame)
      ltac:(rewrite L; simpl; apply Exists_app; right; left; split; reflexivity)
      ltac:(rewrite L; simpl; apply Exists_app; right; right; left; split; reflexivity)
      ltac:(rewrite A; reflexivity) Hpre Hev).
  rewrite B in Hdec. simpl in Hdec.
  rewrite <- selection_after_app in Hdec.
  simpl. unfold is_settled. rewrite Hdec. rewrite Hdec.
  cbn [after outcome remaining].
  repeat split.
  apply hide_sticky.
  match goal with
  | |- settlement (response (dispose_all ?ids ?x)) = _ =>
      destruct (dispose_all_same_rest ids x) as (_ & R & _); rewrite R
  end.
  exact Hdec.
Qed.

Lemma promptUser_first_event_decides_witness :
  let r := promptUser None
             ([] ++ ([EvSelect ["A"; "B"]] ++ EvAccept :: [EvHide]) :: [])
             (newSession (emptyQuickPick string)) in
  outcome r
  = Some (Fulfilled
            (Some (selection_after (List.concat [] ++ [EvSelect ["A"; "B"]])
                     (selectedItems (picker (newSession (emptyQuickPick string))))))) /\
  settlement (response (after r)) = outcome r /\
  remaining r = [].
Proof.
  apply (@promptUser_first_event_decides string None
           (newSession (emptyQuickPick string)) []
           [EvSelect ["A"; "B"]] [EvHide] EvAccept []).
  - constructor.
  - reflexivity.
  - reflexivity.
  - left. reflexivity.
Defined.

(** The cases the spec lists: accept with [A, B]; hide at once; accept with
    nothing selected; accept then hide, and hide then accept, in one turn. *)
Example promptUser_accept_two_items :
  outcome (promptUser None [[EvSelect ["A"; "B"]; EvAccept]]
             (newSession (emptyQuickPick string)))
  = Some (Fulfilled (Some ["A"; "B"])).
Proof. reflexivity. Qed.

Example promptUser_hide_at_once :
  outcome (promptUser None [[EvHide]] (newSession (emptyQuickPick string)))
  = Some (Fulfilled None).
Proof. reflexivity. Qed.

Example promptUser_accept_nothing_selected :
  outcome (promptUser None [[EvAccept]] (newSession (emptyQuickPick string)))
  = Some (Fulfilled (Some [])).
Proof. reflexivity. Qed.

Example promptUser_accept_then_hide :
  response (after (promptUser None [[EvSelect ["A"]; EvAccept; EvHide]]
                     (newSession (emptyQuickPick string))))
  = mkPromise (Some (Fulfilled (Some ["A"]))) [Fulfilled None].
Proof. reflexivity. Qed.

Example promptUser_hide_then_accept :
  response (after (promptUser None [[EvSelect ["A"]; EvHide; EvAccept]]
                     (newSession (emptyQuickPick string))))
  = mkPromise (Some (Fulfilled None)) [Fulfilled (Some ["A"])].
Proof. reflexivity. Qed.

(* ================================================================= *)
(** ** [promptUserWithBusyMessage] *)

Section BusyFacts.
Variable T : Type.
Implicit Types (s : Session T) (ev : UiEvent T).

Lemma promptUserWithBusyMessage_unfold (h : option (ButtonHandler T))
  (turns : list (Turn T)) s :
  promptUserWithBusyMessage h turns s =
  let '(s3, unhandled, rest) := await_didComplete turns true [] (busy_shown s) in
  match settlement (didComplete s3) with
  | None => mkBusyReturn s3 None false unhandled
  | Some (Fulfilled true) =>
      let r := promptUser h (ui_bursts rest)
                 (set_picker (makeQuickPickNotBusy (picker s3)) s3) in
      mkBusyReturn (after r) (outcome r) true unhandled
  | Some (Fulfilled false) =>
      mkBusyReturn (dispose_all [nextSubscription s] s3) (Some (Fulfilled None))
        false unhandled
  | Some (Rejected reason) => mkBusyReturn s3 (Some (Rejected reason)) false unhandled
  end.
Proof. reflexivity. Qed.

(** Once settled, the promise of the busy phase keeps its settlement. *)
Lemma run_action_didComplete (a : HandlerAction T) s :
  didComplete (run_action a s) = didComplete s.
Proof. destruct a; reflexivity. Qed.

Lemma run_callback_didComplete_sticky ev (cb : Callback T) s x :
  settlement (didComplete s) = Some x ->
  settlement (didComplete (run_callback ev cb s)) = Some x.
Proof.
  destruct cb as [| |handler|]; simpl; intros H; try exact H.
  - destruct ev; try exact H.
    apply fold_left_preserves
      with (P := fun s' => settlement (didComplete s') = Some x); [|exact H].
    intros acc a Hacc. rewrite run_action_didComplete. exact Hacc.
  - apply settle_sticky. exact H.
Qed.

Lemma run_callback_pending_or_cancelled ev (cb : Callback T) s :
  pending_or_cancelled s -> pending_or_cancelled (run_callback ev cb s).
Proof.
  unfold pending_or_cancelled.
  destruct cb as [| |handler|]; simpl; intros H; try exact H.
  - destruct ev; try exact H.
    apply fold_left_preserves
      with (P := fun s' => settlement (didComplete s') = None \/
                           settlement (didComplete s') = Some (Fulfilled false));
      [|exact H].
    intros acc a Hacc. rewrite run_action_didComplete. exact Hacc.
  - right. destruct H as [H | H]; [apply settle_pending | apply settle_sticky]; exact H.
Qed.

Lemma deliver_didComplete_sticky ev s x :
  settlement (didComplete s) = Some x ->
  settlement (didComplete (deliver ev s)) = Some x.
Proof.
  assert (Hfire : forall k e s0, settlement (didComplete s0) = Some x ->
                                 settlement (didComplete (fire k e s0)) = Some x).
  { intros k e s0 H0. unfold fire.
    apply fold_left_preserves
      with (P := fun s' => settlement (didComplete s') = Some x); [|exact H0].
    intros acc sub Hacc. apply run_callback_didComplete_sticky. exact Hacc. }
  destruct ev; simpl; intros H; try exact H; apply Hfire; exact H.
Qed.

Lemma deliver_all_didComplete_sticky (burst : list (UiEvent T)) s x :
  settlement (didComplete s) = Some x ->
  settlement (didComplete (deliver_all burst s)) = Some x.
Proof.
  intros H. unfold deliver_all.
  apply fold_left_preserves
    with (P := fun s' => settlement (didComplete s') = Some x); [|exact H].
  intros acc e Hacc. apply deliver_didComplete_sticky. exact Hacc.
Qed.

Lemma deliver_pending_or_cancelled ev s :
  pending_or_cancelled s -> pending_or_cancelled (deliver ev s).
Proof.
  assert (Hfire : forall k e s0, pending_or_cancelled s0 ->
                                 pending_or_cancelled (fire k e s0)).
  { intros k e s0 H0. unfold fire.
    apply fold_left_preserves with (P := @pending_or_cancelled T); [|exact H0].
    intros acc sub Hacc. apply run_callback_pending_or_cancelled. exact Hacc. }
  destruct ev; simpl; intros H; try exact H; apply Hfire; exact H.
Qed.

Lemma deliver_all_pending_or_cancelled (burst : list (UiEvent T)) s :
  pending_or_cancelled s -> pending_or_cancelled (deliver_all burst s).
Proof.
  intros H. unfold deliver_all.
  apply fold_left_preserves with (P := @pending_or_cancelled T); [|exact H].
  intros acc e Hacc. apply deliver_pending_or_cancelled. exact Hacc.
Qed.

(** A hide event reaches the hide listener of the busy phase. *)
Lemma callbacks_cancel ev (l : list (Subscription T)) :
  Exists (fun sub => sub_kind sub = OnDidHide /\ sub_callback sub = ResolveFalse) l ->
  forall a,
    is_settled
      (didComplete
         (fold_left (fun acc sub => run_callback ev (sub_callback sub) acc)
            (filter (fun sub => EventKind_eqb (sub_kind sub) OnDidHide) l) a))
    = true.
Proof.
  induction 1 as [sub l [Hk Hc] | sub l Hex IH]; intros a; simpl.
  - rewrite Hk. simpl. rewrite Hc. simpl.
    destruct (settlement (didComplete
                (set_didComplete (settle (Fulfilled false) (didComplete a)) a))) as [x|] eqn:E.
    + unfold is_settled.
      erewrite (fold_left_preserves
                  (fun acc sub0 => run_callback ev (sub_callback sub0) acc)
                  (fun s' => settlement (didComplete s') = Some x)); [reflexivity| |exact E].
      intros acc sub0 Hacc. apply run_callback_didComplete_sticky. exact Hacc.
    + simpl in E. pose proof (settle_is_settled (Fulfilled false) (didComplete a)) as S.
      unfold is_settled in S. rewrite E in S. discriminate.
  - destruct (EventKind_eqb (sub_kind sub) OnDidHide); simpl; apply IH.
Qed.

Lemma deliver_hide_cancels s :
  hide_cancels s -> is_settled (didComplete (deliver EvHide s)) = true.
Proof.
  intros H. simpl. unfold fire. apply callbacks_cancel. exact H.
Qed.

Lemma deliver_all_cons ev (b : list (UiEvent T)) s :
  deliver_all (ev :: b) s = deliver_all b (deliver ev s).
Proof. reflexivity. Qed.

Lemma deliver_all_hide_cancels (b1 b2 : list (UiEvent T)) s :
  hide_cancels s ->
  is_settled (didComplete (deliver_all (b1 ++ EvHide :: b2) s)) = true.
Proof.
  intros H. rewrite deliver_all_app, deliver_all_cons.
  assert (H1 : hide_cancels (deliver_all b1 s)).
  { unfold hide_cancels. destruct (deliver_all_same_subscriptions b1 s) as (L & _).
    rewrite L. exact H. }
  pose proof (deliver_hide_cancels H1) as S.
  destruct (settlement (didComplete (deliver EvHide (deliver_all b1 s)))) as [x|] eqn:E.
  - unfold is_settled. now rewrite (deliver_all_didComplete_sticky b2 _ E).
  - unfold is_settled in S. rewrite E in S. discriminate.
Qed.

(** A hide event before the population task settles: the promise of the busy
    phase is resolved with [false]. *)
Lemma await_didComplete_cancelled (pre : list (list (UiEvent T)))
  (b1 b2 : list (UiEvent T)) (post : list (Turn T)) s :
  hide_cancels s ->
  pending_or_cancelled s ->
  exists s3 rest,
    await_didComplete (map Ui pre ++ Ui (b1 ++ EvHide :: b2) :: post) true [] s
    = (s3, [], rest) /\
    settlement (didComplete s3) = Some (Fulfilled false).
Proof.
  assert (Hdone : forall s', pending_or_cancelled s' ->
                             is_settled (didComplete s') = true ->
                             settlement (didComplete s') = Some (Fulfilled false)).
  { intros s' [P | P] S; unfold is_settled in S; rewrite P in S; [discriminate | exact P]. }
  revert s. induction pre as [|b pre IH]; intros s Hh Hp; simpl.
  - rewrite (deliver_all_hide_cancels b1 b2 Hh).
    eexists. eexists. split; [reflexivity|].
    apply Hdone; [apply deliver_all_pending_or_cancelled; exact Hp
                 | apply deliver_all_hide_cancels; exact Hh].
  - destruct (is_settled (didComplete (deliver_all b s))) eqn:S.
    + eexists. eexists. split; [reflexivity|].
      apply Hdone; [apply deliver_all_pending_or_cancelled; exact Hp | exact S].
    + apply IH; [|apply deliver_all_pending_or_cancelled; exact Hp].
      unfold hide_cancels. destruct (deliver_all_same_subscriptions b s) as (L & _).
      rewrite L. exact Hh.
Qed.

End BusyFacts.

(** C5.  When a hide event fires before the population task has settled,
    [promptUserWithBusyMessage] resolves to [undefined] and does not start
    the prompt phase, whatever happens afterwards: the later settlement of
    the population task changes nothing. *)
Theorem busy_hide_before_population_cancels :
  forall (T : Type) (h : option (ButtonHandler T)) (s : Session T)
    (pre : list (list (UiEvent T))) (b1 b2 : list (UiEvent T))
    (post : list (Turn T)),
    let r := promptUserWithBusyMessage h
               (map Ui pre ++ Ui (b1 ++ EvHide :: b2) :: post) s in
    busy_outcome r = Some (Fulfilled None) /\
    promptStarted r = false.
Proof.
  intros T h s pre b1 b2 post r. subst r.
  rewrite promptUserWithBusyMessage_unfold.
  destruct (@await_didComplete_cancelled T pre b1 b2 post (busy_shown s))
    as (s3 & rest & Heq & Hset).
  - unfold hide_cancels. simpl. apply Exists_app. right. left. split; reflexivity.
  - left. reflexivity.
  - rewrite Heq. rewrite Hset. split; reflexivity.
Qed.

Example busy_hide_then_population_done :
  let r := promptUserWithBusyMessage None
             [Ui [EvHide]; PopulatorFulfilled; Ui [EvSelect ["X"]; EvAccept]]
             (newSession (emptyQuickPick string)) in
  busy_outcome r = Some (Fulfilled None) /\ promptStarted r = false /\
  listeners (busy_after r) = [].
Proof. repeat split. Qed.

Example busy_population_done_then_accept :
  let r := promptUserWithBusyMessage None
             [PopulatorFulfilled; Ui [EvSelect ["X"]; EvAccept]]
             (newSession (emptyQuickPick string)) in
  busy_outcome r = Some (Fulfilled (Some ["X"])) /\ promptStarted r = true /\
  busy (picker (busy_after r)) = false /\ enabled (picker (busy_after r)) = true.
Proof. repeat split. Qed.

Section PopulationRejects.
Variable T : Type.
Implicit Types (s : Session T) (ev : UiEvent T).

Lemma deliver_busy_waiting (n : nat) ev s :
  busy_waiting n s -> is_hide ev = false -> busy_waiting n (deliver ev s).
Proof.
  intros [L P] Hev. destruct ev as [sel| | |b]; simpl in *; try discriminate.
  - split; assumption.
  - unfold fire. rewrite L. simpl. split; assumption.
  - unfold fire. rewrite L. simpl. split; assumption.
Qed.

Lemma deliver_all_busy_waiting (n : nat) (b : list (UiEvent T)) s :
  busy_waiting n s -> existsb (@is_hide T) b = false -> busy_waiting n (deliver_all b s).
Proof.
  revert s. induction b as [|ev b IH]; intros s K Hb; simpl in *; [exact K|].
  apply orb_false_iff in Hb. destruct Hb as [Hev Hb].
  apply IH; [apply deliver_busy_waiting; assumption | exact Hb].
Qed.

Lemma deliver_all_busy_cancelled (n : nat) (b : list (UiEvent T)) s :
  busy_waiting n s -> existsb (@is_hide T) b = true ->
  settlement (didComplete (deliver_all b s)) = Some (Fulfilled false).
Proof.
  revert s. induction b as [|ev b IH]; intros s K Hb; simpl in Hb; [discriminate|].
  rewrite deliver_all_cons.
  destruct (is_hide ev) eqn:Hev.
  - destruct ev; try discriminate.
    apply deliver_all_didComplete_sticky.
    destruct K as [L P]. simpl. unfold fire. simpl. rewrite L. simpl.
    apply settle_pending. exact P.
  - simpl in Hb. apply IH; [apply deliver_busy_waiting; assumption | exact Hb].
Qed.

Lemma await_didComplete_same_subscriptions (turns : list (Turn T)) (awaiting : bool)
  (unhandled : list string) s :
  same_subscriptions s (fst (fst (await_didComplete turns awaiting unhandled s))).
Proof.
  revert awaiting unhandled s.
  induction turns as [|t turns IH]; intros awaiting unhandled s; simpl.
  - repeat split.
  - destruct t as [b| |reason].
    + destruct (is_settled (didComplete (deliver_all b s))); simpl.
      * apply deliver_all_same_subscriptions.
      * eapply same_subscriptions_trans; [apply deliver_all_same_subscriptions | apply IH].
    + destruct awaiting; [|apply IH].
      rewrite settle_is_settled. simpl. repeat split.
    + destruct awaiting; apply IH.
Qed.

(** Turns without a hide event leave the busy phase waiting. *)
Lemma await_didComplete_waiting (n : nat) (pre : list (list (UiEvent T)))
  (rest : list (Turn T)) (awaiting : bool) (unhandled : list string) s :
  busy_waiting n s ->
  no_hide pre = true ->
  exists s', busy_waiting n s' /\ same_subscriptions s s' /\
    await_didComplete (map Ui pre ++ rest) awaiting unhandled s
    = await_didComplete rest awaiting unhandled s'.
Proof.
  revert s. induction pre as [|b pre IH]; intros s K Hpre; simpl in *.
  - exists s. repeat split; try reflexivity; apply K.
  - apply andb_true_iff in Hpre. destruct Hpre as [Hb Hpre].
    apply negb_true_iff in Hb.
    pose proof (deliver_all_busy_waiting b K Hb) as K'.
    unfold is_settled. rewrite (proj2 K').
    destruct (IH _ K' Hpre) as (s' & K'' & Hsame & Heq).
    exists s'. split; [exact K''|]. split; [|exact Heq].
    eapply same_subscriptions_trans; [apply deliver_all_same_subscriptions | exact Hsame].
Qed.

(** After the population task has rejected, only a hide event settles the
    promise of the busy phase. *)
Lemma await_didComplete_after_rejection (n : nat) (post : list (Turn T))
  (unhandled : list string) s :
  busy_waiting n s ->
  exists s3 rest,
    await_didComplete post false unhandled s = (s3, unhandled, rest) /\
    same_subscriptions s s3 /\
    settlement (didComplete s3)
    = if has_hide post then Some (Fulfilled false) else None.
Proof.
  revert s. induction post as [|t post IH]; intros s K; simpl.
  - exists s, []. repeat split. apply K.
  - destruct t as [b| |reason].
    + unfold has_hide. simpl. fold (has_hide post).
      destruct (existsb (@is_hide T) b) eqn:Hb; simpl.
      * pose proof (deliver_all_busy_cancelled b K Hb) as Hc.
        unfold is_settled. rewrite Hc.
        exists (deliver_all b s), post. repeat split; try exact Hc;
          apply deliver_all_same_subscriptions.
      * pose proof (deliver_all_busy_waiting b K Hb) as K'.
        unfold is_settled. rewrite (proj2 K').
        destruct (IH _ K') as (s3 & rest & Heq & Hsame & Hset).
        exists s3, rest. split; [exact Heq|]. split; [|exact Hset].
        eapply same_subscriptions_trans; [apply deliver_all_same_subscriptions | exact Hsame].
    + exact (IH s K).
    + exact (IH s K).
Qed.

End PopulationRejects.

(** C6, as the code has it.  When the population task rejects before any
    hide event, on a widget without other listeners, the rejection does not
    reach the caller: it is left unhandled in the executor, the prompt phase
    is not started and the widget stays busy and disabled; the returned
    promise is not settled until a hide event fires, and then resolves to
    [undefined]. *)
Theorem busy_population_rejection_not_propagated :
  forall (T : Type) (h : option (ButtonHandler T)) (s : Session T)
    (pre : list (list (UiEvent T))) (reason : string) (post : list (Turn T)),
    listeners s = [] ->
    no_hide pre = true ->
    let r := promptUserWithBusyMessage h
               (map Ui pre ++ PopulatorRejected reason :: post) s in
    busy_outcome r = (if has_hide post then Some (Fulfilled None) else None) /\
    promptStarted r = false /\
    unhandledRejections r = [reason] /\
    busy (picker (busy_after r)) = true /\
    enabled (picker (busy_after r)) = false.
Proof.
  intros T h s pre reason post Hl Hpre r. subst r.
  rewrite promptUserWithBusyMessage_unfold.
  assert (K : busy_waiting (nextSubscription s) (busy_shown s))
    by (split; simpl; [rewrite Hl|]; reflexivity).
  destruct (@await_didComplete_waiting T _ pre (PopulatorRejected reason :: post)
              true [] _ K Hpre) as (s1 & K1 & Hsame1 & Heq1).
  rewrite Heq1. simpl.
  destruct (@await_didComplete_after_rejection T _ post [reason] _ K1)
    as (s3 & rest & Heq3 & Hsame3 & Hset).
  rewrite Heq3. rewrite Hset.
  destruct Hsame1 as (_ & _ & B1 & E1). destruct Hsame3 as (_ & _ & B3 & E3).
  simpl in B1, E1. rewrite B1 in B3. rewrite E1 in E3.
  destruct (has_hide post); simpl; rewrite B3, E3; repeat split.
Qed.

Lemma busy_population_rejection_not_propagated_witness :
  let r := promptUserWithBusyMessage None
             (map Ui [[EvSelect ["X"]]] ++ PopulatorRejected "listing failed"
                :: [Ui [EvHide]])
             (newSession (emptyQuickPick string)) in
  busy_outcome r
  = (if has_hide [Ui [@EvHide string]] then Some (Fulfilled None) else None) /\
  promptStarted r = false /\
  unhandledRejections r = ["listing failed"] /\
  busy (picker (busy_after r)) = true /\
  enabled (picker (busy_after r)) = false.
Proof.
  apply (@busy_population_rejection_not_propagated string None
           (newSession (emptyQuickPick string)) [[EvSelect ["X"]]]
           "listing failed" [Ui [EvHide]]).
  - reflexivity.
  - reflexivity.
Defined.

(** C6, as stated, fails: the population task rejects and the returned
    promise is not rejected; it is not settled at all. *)
Lemma busy_population_rejection_counterexample :
  ~ (forall (turns : list (Turn string)) (reason : string),
        In (PopulatorRejected reason) turns ->
        busy_outcome (promptUserWithBusyMessage None turns
                        (newSession (emptyQuickPick string)))
        = Some (Rejected reason)).
Proof.
  intros H.
  specialize (H [PopulatorRejected "listing failed"] "listing failed"
                (or_introl eq_refl)).
  vm_compute in H. discriminate.
Qed.

(* ================================================================= *)
(** ** [DefaultCreateNewSamAppWizardContext.promptUserForTemplate] *)

Lemma templateItem_labels (currLanguage : option SamLambdaTemplate)
  (languages : list SamLambdaTemplate) :
  map label (map (DefaultContext.templateItem currLanguage) languages) = languages.
Proof.
  induction languages as [|l languages IH]; simpl; [reflexivity | now rewrite IH].
Qed.

(** What a call does to the context, and what it offers: the template sets
    are as before, except that the hello-world set is replaced by the full
    set for the two Python runtimes; the picker offers the hello-world set
    as it is after that. *)
Lemma promptUserForTemplate_effect
  (this : DefaultContext.DefaultCreateNewSamAppWizardContext)
  (currRuntime : option Runtime) (currLanguage : option SamLambdaTemplate)
  (bursts : list (list (UiEvent QuickPickItem))) :
  let r := DefaultContext.promptUserForTemplate this currRuntime currLanguage bursts in
  DefaultContext.lambdaTemplates (DefaultContext.context_after r)
  = DefaultContext.lambdaTemplates this /\
  DefaultContext.lambdaTemplatesHelloWorld (DefaultContext.context_after r)
  = (if Js.strict_eq currRuntime "python3.7" || Js.strict_eq currRuntime "python3.6"
     then DefaultContext.lambdaTemplates this
     else DefaultContext.lambdaTemplatesHelloWorld this) /\
  map label (items (DefaultContext.created r))
  = DefaultContext.lambdaTemplatesHelloWorld (DefaultContext.context_after r).
Proof.
  unfold DefaultContext.promptUserForTemplate.
  destruct (outcome (promptUser _ bursts _)) as [[choices|reason]|];
    try destruct (verifySinglePickerOutput choices) as [val log];
    cbn [DefaultContext.context_after DefaultContext.created];
    destruct (Js.strict_eq currRuntime "python3.7" || Js.strict_eq currRuntime "python3.6");
    simpl; rewrite templateItem_labels; repeat split.
Qed.

Lemma replay_widened (calls : list DefaultContext.TemplateCall)
  (this : DefaultContext.DefaultCreateNewSamAppWizardContext) :
  DefaultContext.lambdaTemplatesHelloWorld this = DefaultContext.lambdaTemplates this ->
  Forall (fun offer => offer = DefaultContext.lambdaTemplates this)
    (fst (DefaultContext.replay this calls)) /\
  List.length (fst (DefaultContext.replay this calls)) = List.length calls /\
  DefaultContext.lambdaTemplatesHelloWorld (snd (DefaultContext.replay this calls))
  = DefaultContext.lambdaTemplates this.
Proof.
  revert this. induction calls as [|[[rt lang] bursts] calls IH]; intros this Hw; simpl.
  - repeat split; [constructor | exact Hw].
  - destruct (promptUserForTemplate_effect this rt lang bursts) as (A & B & D).
    assert (Hw' : DefaultContext.lambdaTemplatesHelloWorld
                    (DefaultContext.context_after
                       (DefaultContext.promptUserForTemplate this rt lang bursts))
                  = DefaultContext.lambdaTemplates
                      (DefaultContext.context_after
                         (DefaultContext.promptUserForTemplate this rt lang bursts))).
    { rewrite B, A. destruct (_ || _); [reflexivity | exact Hw]. }
    destruct (IH _ Hw') as (F & L & E).
    destruct (DefaultContext.replay
                (DefaultContext.context_after
                   (DefaultContext.promptUserForTemplate this rt lang bursts)) calls)
      as [offers final_context].
    simpl in *. rewrite A in *.
    repeat split.
    + constructor; [|exact F]. rewrite D, Hw'. reflexivity.
    + now rewrite L.
    + exact E.
Qed.

(** C10.  A call of [promptUserForTemplate] with runtime ['python3.7'] or
    ['python3.6'] replaces the hello-world set of the context by the full set
    of templates and offers the full set.  Every later call on the same
    context, with whatever runtime, offers the full set again, and the
    hello-world set is still the full set after the last one. *)
Theorem promptUserForTemplate_python_widens_for_good :
  forall (this : DefaultContext.DefaultCreateNewSamAppWizardContext)
    (currRuntime : option Runtime) (currLanguage : option SamLambdaTemplate)
    (bursts : list (list (UiEvent QuickPickItem)))
    (calls : list DefaultContext.TemplateCall),
    currRuntime = Some "python3.7" \/ currRuntime = Some "python3.6" ->
    let r := DefaultContext.promptUserForTemplate this currRuntime currLanguage bursts in
    DefaultContext.lambdaTemplatesHelloWorld (DefaultContext.context_after r)
    = DefaultContext.lambdaTemplates this /\
    map label (items (DefaultContext.created r)) = DefaultContext.lambdaTemplates this /\
    Forall (fun offer => offer = DefaultContext.lambdaTemplates this)
      (fst (DefaultContext.replay (DefaultContext.context_after r) calls)) /\
    List.length (fst (DefaultContext.replay (DefaultContext.context_after r) calls))
    = List.length calls /\
    DefaultContext.lambdaTemplatesHelloWorld
      (snd (DefaultContext.replay (DefaultContext.context_after r) calls))
    = DefaultContext.lambdaTemplates this.
Proof.
  intros this currRuntime currLanguage bursts calls Hpy r.
  destruct (promptUserForTemplate_effect this currRuntime currLanguage bursts)
    as (A & B & D).
  fold r in A, B, D.
  assert (Hpy' : Js.strict_eq currRuntime "python3.7"
                 || Js.strict_eq currRuntime "python3.6" = true)
    by (destruct Hpy as [-> | ->]; reflexivity).
  rewrite Hpy' in B.
  assert (Hw : DefaultContext.lambdaTemplatesHelloWorld (DefaultContext.context_after r)
               = DefaultContext.lambdaTemplates (DefaultContext.context_after r))
    by (rewrite B, A; reflexivity).
  destruct (replay_widened calls (DefaultContext.context_after r) Hw) as (F & L & E).
  rewrite A in F, E.
  repeat split; try assumption.
  rewrite D. exact B.
Qed.

Lemma promptUserForTemplate_python_widens_for_good_witness :
  let this := DefaultContext.construct ["nodejs12.x"; "python3.7"]
                ["helloworld"; "eventBridge-schema-app"] ["helloworld"] in
  let calls : list DefaultContext.TemplateCall :=
    [((Some "nodejs12.x", None), [[EvHide]])] in
  let r := DefaultContext.promptUserForTemplate this (Some "python3.7") None
             [[EvButton Back]] in
  DefaultContext.lambdaTemplatesHelloWorld (DefaultContext.context_after r)
  = DefaultContext.lambdaTemplates this /\
  map label (items (DefaultContext.created r)) = DefaultContext.lambdaTemplates this /\
  Forall (fun offer => offer = DefaultContext.lambdaTemplates this)
    (fst (DefaultContext.replay (DefaultContext.context_after r) calls)) /\
  List.length (fst (DefaultContext.replay (DefaultContext.context_after r) calls))
  = List.length calls /\
  DefaultContext.lambdaTemplatesHelloWorld
    (snd (DefaultContext.replay (DefaultContext.context_after r) calls))
  = DefaultContext.lambdaTemplates this.
Proof.
  intros this calls.
  apply (@promptUserForTemplate_python_widens_for_good this (Some "python3.7") None
           [[EvButton Back]] calls).
  left. reflexivity.
Defined.

(** Before any Python runtime is chosen the picker offers the hello-world
    set; after one call with ['python3.7'] a call for another runtime offers
    the full set. *)
Example promptUserForTemplate_offers :
  fst (DefaultContext.replay
         (DefaultContext.construct ["nodejs12.x"; "python3.7"]
            ["helloworld"; "eventBridge-schema-app"] ["helloworld"])
         [((Some "nodejs12.x", None), [[EvButton Back]]);
          ((Some "python3.7", None), [[EvButton Back]]);
          ((Some "nodejs12.x", None), [[EvHide]])])
  = [["helloworld"];
     ["helloworld"; "eventBridge-schema-app"];
     ["helloworld"; "eventBridge-schema-app"]].
Proof. reflexivity. Qed.

(* ================================================================= *)
(** * Further properties *)

(* ================================================================= *)
(** ** The step graph of the wizard *)

Section StepGraph.
Variable C : Type.
Variable context : CreateNewSamAppWizardContext C.

Ltac open_step :=
  simpl;
  unfold RUNTIME_step, TEMPLATE_step, REGION_step, REGISTRY_step,
    SCHEMA_step, LOCATION_step, NAME_step;
  match goal with
  | |- context [let (_, _) := ?p in _] => destruct p as [c1 v]
  end; simpl.

(** What a step relies on holds again at the step it hands over to. *)
Lemma step_ready_preserved (s s' : WizardStep) (w : CreateNewSamAppWizard) (c : C)
  (w' : CreateNewSamAppWizard) (c' : C) :
  step_ready s w ->
  call_step context s w c = ((w', c'), Some s') ->
  step_ready s' w'.
Proof.
  destruct s; open_step; intros Hready.
  - destruct (Js.truthy v) eqn:Ev; intros H; inversion H; subst; simpl. exact Ev.
  - destruct (Js.strict_eq v "eventBridge-schema-app") eqn:Eb.
    + intros H; inversion H; subst; simpl. split; [exact Hready|].
      apply strict_eq_true. exact Eb.
    + destruct (Js.truthy v) eqn:Ev; intros H; inversion H; subst; simpl.
      * split; [exact Hready|]. split; [exact Ev|].
        intros E. exfalso. exact (strict_eq_false Eb E).
      * exact I.
  - destruct Hready as (Hr & Ht).
    destruct (Js.truthy v) eqn:Ev; intros H; inversion H; subst; simpl.
    + repeat split; assumption.
    + exact Hr.
  - destruct Hready as (Hr & Ht & Hg).
    destruct (Js.truthy v) eqn:Ev; intros H; inversion H; subst; simpl.
    + repeat split; assumption.
    + exact Hr.
  - destruct Hready as (Hr & Ht & Hg & Hn).
    destruct (Js.truthy v) eqn:Ev; intros H; inversion H; subst; simpl.
    + split; [exact Hr|]. split; [rewrite Ht; reflexivity|].
      intros _. unfold schema_fields_set. simpl. repeat split; assumption.
    + repeat split; assumption.
  - destruct Hready as (Hr & Ht & Hs).
    destruct (Js.truthy_obj v) eqn:Ev; simpl.
    + intros H; inversion H; subst; simpl.
      split; [exact Hr|]. split; [exact Ht|]. split; [|exact Ev].
      intros E. exact (Hs E).
    + destruct (Js.strict_eq (template w) "eventBridge-schema-app");
        intros H; inversion H; subst; simpl; exact Hr.
  - destruct Hready as (Hr & Ht & Hs & Hl).
    destruct (Js.truthy v) eqn:Ev; intros H; inversion H; subst; simpl.
    split; [exact Hr|]. split; [exact Ht|]. intros E. exact (Hs E).
Qed.

Lemma reaches_step_ready (s0 : WizardStep) (st0 : CreateNewSamAppWizard * C)
  (path : list WizardStep) (s : WizardStep) (st : CreateNewSamAppWizard * C) :
  reaches (wizard_invoke context) s0 st0 path s st ->
  step_ready s0 (fst st0) -> step_ready s (fst st).
Proof.
  induction 1 as [s1 st1 | s1 st1 s2 st2 path s' st' Hstep Hreach IH]; intros Hready;
    [exact Hready|].
  apply IH. unfold wizard_invoke in Hstep.
  destruct (call_step context s1 (fst st1) (snd st1)) as [[w2 c2] [next|]] eqn:E;
    simpl in Hstep; inversion Hstep; subst.
  simpl. exact (step_ready_preserved _ _ _ Hready E).
Qed.

End StepGraph.

(** X1.  A step returns [undefined] in two places only: [RUNTIME], when its
    prompt gave no runtime (and then [getResult] gives [undefined]), and
    [NAME], when its prompt gave a name. *)
Theorem wizard_ends_at_RUNTIME_or_NAME :
  forall (C : Type) (context : CreateNewSamAppWizardContext C)
    (s : WizardStep) (w : CreateNewSamAppWizard) (c : C)
    (w' : CreateNewSamAppWizard) (c' : C),
    call_step context s w c = ((w', c'), None) ->
    (s = RUNTIME /\ Js.truthy (runtime w') = false /\ getResult w' = None) \/
    (s = NAME /\ Js.truthy (name w') = true).
Proof.
  intros C context s w c w' c'.
  destruct s; simpl;
    unfold RUNTIME_step, TEMPLATE_step, REGION_step, REGISTRY_step,
      SCHEMA_step, LOCATION_step, NAME_step;
    match goal with
    | |- context [let (_, _) := ?p in _] => destruct p as [c1 v]
    end; simpl;
    try destruct (Js.strict_eq v "eventBridge-schema-app");
    try destruct (Js.truthy v) eqn:Ev;
    try destruct (Js.truthy_obj v) eqn:Ev; simpl;
    try destruct (Js.strict_eq (template w) "eventBridge-schema-app");
    intros H; inversion H; subst; simpl;
    first [ left; split; [reflexivity|]; split; [assumption|];
            unfold getResult, mandatory_missing; simpl; rewrite Ev; reflexivity
          | right; split; [reflexivity | assumption] ].
Qed.

Lemma wizard_ends_at_RUNTIME_or_NAME_witness :
  (NAME = RUNTIME /\
   Js.truthy (runtime (mkWizard (Some "nodejs12.x") (Some "helloworld") None None None
                         (Some (mkUri "/work")) (Some "app"))) = false /\
   getResult (mkWizard (Some "nodejs12.x") (Some "helloworld") None None None
                (Some (mkUri "/work")) (Some "app")) = None) \/
  (NAME = NAME /\
   Js.truthy (name (mkWizard (Some "nodejs12.x") (Some "helloworld") None None None
                      (Some (mkUri "/work")) (Some "app"))) = true).
Proof.
  apply (@wizard_ends_at_RUNTIME_or_NAME _ scriptedContext NAME
           (mkWizard (Some "nodejs12.x") (Some "helloworld") None None None
              (Some (mkUri "/work")) None)
           [Some "app"]
           (mkWizard (Some "nodejs12.x") (Some "helloworld") None None None
              (Some (mkUri "/work")) (Some "app"))
           []).
  reflexivity.
Defined.

(** X2.  In a run that starts at [RUNTIME] on a wizard just constructed,
    when [NAME] returns [undefined] the four mandatory fields are set, so
    [getResult] gives the result object; and when the template is
    ['eventBridge-schema-app'], region, registry name and schema name are set
    as well. *)
Theorem completed_wizard_has_result :
  forall (C : Type) (context : CreateNewSamAppWizardContext C) (c0 : C)
    (path : list WizardStep) (w : CreateNewSamAppWizard) (c : C)
    (w' : CreateNewSamAppWizard) (c' : C),
    reaches (wizard_invoke context) startStep (newWizard, c0) path NAME (w, c) ->
    call_step context NAME w c = ((w', c'), None) ->
    getResult w' = Some (response_of w') /\
    (template w' = Some "eventBridge-schema-app" -> schema_fields_set w').
Proof.
  intros C context c0 path w c w' c' Hreach Hname.
  pose proof (reaches_step_ready Hreach I) as Hready. simpl in Hready.
  destruct Hready as (Hr & Ht & Hs & Hl).
  simpl in Hname. unfold NAME_step in Hname.
  destruct (promptUserForName context c) as [c1 v].
  destruct (Js.truthy v) eqn:Ev; inversion Hname; subst.
  split.
  - apply getResult_set. unfold mandatory_set. simpl. auto.
  - intros E. apply Hs. exact E.
Qed.

Lemma completed_wizard_has_result_witness :
  getResult (mkWizard (Some "java8") (Some "eventBridge-schema-app") (Some "us-east-1")
               (Some "aws.events") (Some "aws.ec2@Event") (Some (mkUri "/work"))
               (Some "app"))
  = Some (response_of
            (mkWizard (Some "java8") (Some "eventBridge-schema-app") (Some "us-east-1")
               (Some "aws.events") (Some "aws.ec2@Event") (Some (mkUri "/work"))
               (Some "app"))) /\
  (template (mkWizard (Some "java8") (Some "eventBridge-schema-app") (Some "us-east-1")
               (Some "aws.events") (Some "aws.ec2@Event") (Some (mkUri "/work"))
               (Some "app"))
   = Some "eventBridge-schema-app" ->
   schema_fields_set
     (mkWizard (Some "java8") (Some "eventBridge-schema-app") (Some "us-east-1")
        (Some "aws.events") (Some "aws.ec2@Event") (Some (mkUri "/work"))
        (Some "app"))).
Proof.
  apply (@completed_wizard_has_result _ scriptedContext
           [Some "java8"; Some "eventBridge-schema-app"; Some "us-east-1";
            Some "aws.events"; Some "aws.ec2@Event"; Some "/work"; Some "app"]
           [RUNTIME; TEMPLATE; REGION; REGISTRY; SCHEMA; LOCATION]
           (mkWizard (Some "java8") (Some "eventBridge-schema-app") (Some "us-east-1")
              (Some "aws.events") (Some "aws.ec2@Event") (Some (mkUri "/work")) None)
           [Some "app"]
           (mkWizard (Some "java8") (Some "eventBridge-schema-app") (Some "us-east-1")
              (Some "aws.events") (Some "aws.ec2@Event") (Some (mkUri "/work"))
              (Some "app"))
           []).
  - repeat (eapply reaches_next; [reflexivity|]). apply reaches_here.
  - reflexivity.
Defined.

(** X3.  In a run that starts at [RUNTIME] on a wizard just constructed, the
    values passed with a non-null assertion are there: the runtime when
    [TEMPLATE] is entered, the region when [REGISTRY] or [SCHEMA] is
    entered. *)
Theorem non_null_assertions_hold :
  forall (C : Type) (context : CreateNewSamAppWizardContext C) (c0 : C)
    (path : list WizardStep) (s : WizardStep) (w : CreateNewSamAppWizard) (c : C),
    reaches (wizard_invoke context) startStep (newWizard, c0) path s (w, c) ->
    match s with
    | TEMPLATE => exists r, runtime w = Some r /\ r <> ""
    | REGISTRY | SCHEMA => exists r, region w = Some r /\ r <> ""
    | _ => True
    end.
Proof.
  intros C context c0 path s w c Hreach.
  pose proof (reaches_step_ready Hreach I) as Hready. simpl in Hready.
  destruct s; simpl in *; try exact I.
  - apply truthy_Some. exact Hready.
  - destruct Hready as (_ & _ & Hg). apply truthy_Some. exact Hg.
  - destruct Hready as (_ & _ & Hg & _). apply truthy_Some. exact Hg.
Qed.

Lemma non_null_assertions_hold_witness :
  exists r, region (mkWizard (Some "java8") (Some "eventBridge-schema-app")
                      (Some "us-east-1") None None None None) = Some r /\ r <> "".
Proof.
  apply (@non_null_assertions_hold _ scriptedContext
           [Some "java8"; Some "eventBridge-schema-app"; Some "us-east-1"]
           [RUNTIME; TEMPLATE; REGION] REGISTRY
           (mkWizard (Some "java8") (Some "eventBridge-schema-app")
              (Some "us-east-1") None None None None)
           []).
  repeat (eapply reaches_next; [reflexivity|]). apply reaches_here.
Defined.

(** X4 (witness).  The template prompt is cancelled after a template had been
    chosen: the wizard goes back to [RUNTIME] and the template field holds
    [undefined]. *)
Lemma backward_only_on_cancel_witness :
  match owned_field TEMPLATE
          (mkWizard (Some "nodejs12.x") None None None None None None) with
  | FString v => Js.truthy v = false
  | FUri v => Js.truthy_obj v = false
  end.
Proof.
  apply (@backward_only_on_cancel _ scriptedContext TEMPLATE RUNTIME
           (mkWizard (Some "nodejs12.x") (Some "helloworld") None None None None None)
           [None]
           (mkWizard (Some "nodejs12.x") None None None None None None)
           []).
  - reflexivity.
  - simpl. lia.
Defined.

(* ================================================================= *)
(** ** The validator of [promptUserForName] *)

Lemma includes_In (value : string) (sep : ascii) :
  includes value sep = true <-> In sep (list_ascii_of_string value).
Proof.
  induction value as [|c rest IH]; simpl.
  - split; [discriminate | intros []].
  - rewrite orb_true_iff, IH. rewrite Ascii.eqb_eq. reflexivity.
Qed.

(** X5.  The validator accepts exactly the names that are not empty and do
    not contain the path separator; a name it accepts is truthy, so [NAME]
    ends the wizard with it instead of going back to [LOCATION]. *)
Theorem onValidateInput_accepts :
  forall (sep : ascii) (value : string),
    (onValidateInput sep value = None <->
     value <> "" /\ ~ In sep (list_ascii_of_string value)) /\
    (onValidateInput sep value = None -> Js.truthy (Some value) = true).
Proof.
  intros sep value. unfold onValidateInput, Js.truthy, Js.truthy_string.
  destruct (String.eqb_spec value "") as [E | E]; simpl.
  - split; [|discriminate]. split; [discriminate | intros [H _]; contradiction].
  - destruct (includes value sep) eqn:I.
    + split; [|discriminate]. split; [discriminate|].
      intros [_ H]. exfalso. apply H. apply includes_In. exact I.
    + split; [|reflexivity]. split; [|reflexivity].
      intros _. split; [exact E|]. intros H. apply includes_In in H. congruence.
Qed.

(* ================================================================= *)
(** ** [getCoreFileName] *)

Lemma split_not_nil (s : string) (sep : ascii) : split s sep <> [].
Proof.
  destruct s as [|c rest]; simpl; [discriminate|].
  destruct (Ascii.eqb c sep); [discriminate|].
  destruct (split rest sep); discriminate.
Qed.

Lemma join_split (s : string) (sep : ascii) : join (split s sep) sep = s.
Proof.
  induction s as [|c rest IH]; simpl; [reflexivity|].
  destruct (Ascii.eqb_spec c sep) as [-> | Hc].
  - pose proof (split_not_nil rest sep) as Hn.
    destruct (split rest sep) as [|seg segs] eqn:E; [contradiction|].
    change (join ("" :: seg :: segs) sep) with (String sep (join (seg :: segs) sep)).
    now rewrite IH.
  - pose proof (split_not_nil rest sep) as Hn.
    destruct (split rest sep) as [|seg segs] eqn:E; [contradiction|].
    destruct segs as [|seg' segs]; simpl in *; now rewrite <- IH.
Qed.

Lemma split_segments_clean (s : string) (sep : ascii) :
  Forall (fun segment => includes segment sep = false) (split s sep).
Proof.
  induction s as [|c rest IH]; simpl; [repeat constructor|].
  destruct (Ascii.eqb c sep) eqn:Ec; [constructor; [reflexivity | exact IH]|].
  destruct (split rest sep) as [|seg segs]; [repeat constructor; simpl; now rewrite Ec|].
  inversion IH; subst. constructor; [simpl; now rewrite Ec | assumption].
Qed.

Lemma split_without_sep (s : string) (sep : ascii) :
  includes s sep = false -> split s sep = [s].
Proof.
  induction s as [|c rest IH]; simpl; [reflexivity|].
  intros H. apply orb_false_iff in H. destruct H as [Hc Hrest].
  rewrite Hc, (IH Hrest). reflexivity.
Qed.

Lemma string_append_assoc (a b c : string) :
  ((a ++ b) ++ c = a ++ (b ++ c))%string.
Proof. induction a as [|ch a IH]; simpl; [reflexivity | now rewrite IH]. Qed.

Lemma join_snoc (init : list string) (x : string) (sep : ascii) :
  init <> [] ->
  join (init ++ [x]) sep = (join init sep ++ String sep x)%string.
Proof.
  induction init as [|a init IH]; [contradiction|]. intros _.
  destruct init as [|b init]; [reflexivity|].
  change (join ((a :: b :: init) ++ [x]) sep)
    with (a ++ String sep (join ((b :: init) ++ [x]) sep))%string.
  rewrite IH by discriminate.
  change (join (a :: b :: init) sep) with (a ++ String sep (join (b :: init) sep))%string.
  rewrite string_append_assoc. reflexivity.
Qed.

(** X6.  [getCoreFileName] gives the part of the schema name after its last
    ['@']: the result contains no ['@'], the name is the result itself or
    ends with ['@'] followed by the result, and a name without ['@'] is
    returned whole. *)
Theorem getCoreFileName_after_last_at :
  forall schemaName : string,
    includes (getCoreFileName schemaName) "@" = false /\
    (schemaName = getCoreFileName schemaName \/
     exists before,
       schemaName = (before ++ String "@" (getCoreFileName schemaName))%string) /\
    (includes schemaName "@" = false -> getCoreFileName schemaName = schemaName).
Proof.
  intros schemaName. unfold getCoreFileName.
  pose proof (split_not_nil schemaName "@") as Hn.
  pose proof (split_segments_clean schemaName "@") as Hclean.
  pose proof (join_split schemaName "@") as Hjoin.
  split; [|split].
  - rewrite Forall_forall in Hclean. apply Hclean.
    destruct (split schemaName "@") as [|seg segs]; [contradiction|].
    apply (@exists_last _ (seg :: segs)) in Hn. destruct Hn as (init & x & E).
    rewrite E. rewrite last_last. apply in_or_app. right. now left.
  - destruct (@exists_last _ (split schemaName "@") Hn) as (init & x & E).
    rewrite E in *. rewrite last_last.
    destruct init as [|a init].
    + left. simpl in Hjoin. now rewrite Hjoin.
    + right. rewrite join_snoc in Hjoin by discriminate.
      exists (join (a :: init) "@"). now rewrite Hjoin.
  - intros H. rewrite (split_without_sep _ _ H). reflexivity.
Qed.

Example getCoreFileName_event_schema :
  getCoreFileName "aws.ec2@EC2InstanceStateChangeNotification"
  = "EC2InstanceStateChangeNotification"
  /\ getCoreFileName "a@b@c" = "c" /\ getCoreFileName "plain" = "plain"
  /\ getCoreFileName "trailing@" = "".
Proof. repeat split. Qed.

(* ================================================================= *)
(** ** [DefaultSamCliConfiguration] *)

Section ConfigurationFacts.
Import SamCliConfiguration.
Variable S : Type.
Variable configuration : SettingsConfiguration S.
Variable fileExists : string -> bool.
Variable detectedLocation : option string.

Lemma initialize_cases (s : S) :
  (exists path, getSamCliLocation configuration s = Some path /\ path <> "" /\
                fileExists path = true /\
                initialize configuration fileExists detectedLocation s = s) \/
  ((forall path, getSamCliLocation configuration s = Some path ->
                 path = "" \/ fileExists path = false) /\
   initialize configuration fileExists detectedLocation s
   = setSamCliLocation configuration detectedLocation s).
Proof.
  unfold initialize.
  destruct (getSamCliLocation configuration s) as [path|] eqn:E.
  - unfold Js.truthy_string. destruct (String.eqb_spec path "") as [Hp | Hp]; simpl.
    + right. split; [|reflexivity]. intros p Hp'. injection Hp' as <-. now left.
    + destruct (fileExists path) eqn:F.
      * left. exists path. repeat split; assumption.
      * right. split; [|reflexivity]. intros p Hp'. injection Hp' as <-. now right.
  - right. split; [|reflexivity]. intros p Hp'. discriminate.
Qed.

End ConfigurationFacts.

(** X7.  [initialize] leaves the settings untouched when the configured
    location is not empty and the file exists. *)
Theorem initialize_keeps_existing_location :
  forall (S : Type) (configuration : SamCliConfiguration.SettingsConfiguration S)
    (fileExists : string -> bool) (detectedLocation : option string)
    (s : S) (path : string),
    SamCliConfiguration.getSamCliLocation configuration s = Some path ->
    path <> "" ->
    fileExists path = true ->
    SamCliConfiguration.initialize configuration fileExists detectedLocation s = s.
Proof.
  intros S configuration fileExists detectedLocation s path Hget Hp Hf.
  unfold SamCliConfiguration.initialize. rewrite Hget.
  unfold Js.truthy_string. destruct (String.eqb_spec path "") as [E | E]; [contradiction|].
  simpl. now rewrite Hf.
Qed.

Lemma initialize_keeps_existing_location_witness :
  SamCliConfiguration.initialize SamCliConfiguration.functionSettings
    (fun path => String.eqb path "/usr/local/bin/sam") (Some "/opt/sam")
    (fun _ => Some "/usr/local/bin/sam")
  = (fun _ => Some "/usr/local/bin/sam").
Proof.
  apply (@initialize_keeps_existing_location _ SamCliConfiguration.functionSettings
           (fun path => String.eqb path "/usr/local/bin/sam") (Some "/opt/sam")
           (fun _ => Some "/usr/local/bin/sam") "/usr/local/bin/sam").
  - reflexivity.
  - discriminate.
  - reflexivity.
Defined.

(** X8.  When no location is configured, or the configured one is empty or
    its file is gone, [initialize] stores what the locator found, also when
    it found nothing: the setting is then [undefined]. *)
Theorem initialize_stores_detected_location :
  forall (S : Type) (configuration : SamCliConfiguration.SettingsConfiguration S)
    (fileExists : string -> bool) (detectedLocation : option string) (s : S),
    SamCliConfiguration.reads_back configuration ->
    (forall path, SamCliConfiguration.getSamCliLocation configuration s = Some path ->
                  path = "" \/ fileExists path = false) ->
    SamCliConfiguration.getSamCliLocation configuration
      (SamCliConfiguration.initialize configuration fileExists detectedLocation s)
    = detectedLocation.
Proof.
  intros S configuration fileExists detectedLocation s Hrb Hbad.
  destruct (initialize_cases configuration fileExists detectedLocation s)
    as [(path & Hget & Hp & Hf & _) | (_ & Heq)].
  - destruct (Hbad path Hget) as [E | E]; [contradiction | congruence].
  - rewrite Heq. apply Hrb.
Qed.

Lemma initialize_stores_detected_location_witness :
  SamCliConfiguration.getSamCliLocation SamCliConfiguration.functionSettings
    (SamCliConfiguration.initialize SamCliConfiguration.functionSettings
       (fun _ => false) None (fun _ => Some "/gone/sam"))
  = None.
Proof.
  apply (@initialize_stores_detected_location _ SamCliConfiguration.functionSettings
           (fun _ => false) None (fun _ => Some "/gone/sam")).
  - intros s key v t. simpl. now rewrite String.eqb_refl.
  - intros path _. now right.
Defined.

(** X9.  Running [initialize] again, with the same files and the same
    locator, leaves the configured location as the first run left it. *)
Theorem initialize_twice_same_location :
  forall (S : Type) (configuration : SamCliConfiguration.SettingsConfiguration S)
    (fileExists : string -> bool) (detectedLocation : option string) (s : S),
    SamCliConfiguration.reads_back configuration ->
    SamCliConfiguration.getSamCliLocation configuration
      (SamCliConfiguration.initialize configuration fileExists detectedLocation
         (SamCliConfiguration.initialize configuration fileExists detectedLocation s))
    = SamCliConfiguration.getSamCliLocation configuration
        (SamCliConfiguration.initialize configuration fileExists detectedLocation s).
Proof.
  intros S configuration fileExists detectedLocation s Hrb.
  destruct (initialize_cases configuration fileExists detectedLocation
              (SamCliConfiguration.initialize configuration fileExists detectedLocation s))
    as [(path & _ & _ & _ & Heq) | (Hbad & Heq)]; rewrite Heq; [reflexivity|].
  unfold SamCliConfiguration.getSamCliLocation at 1.
  unfold SamCliConfiguration.setSamCliLocation. rewrite Hrb.
  destruct (initialize_cases configuration fileExists detectedLocation s)
    as [(path & Hget & Hp & Hf & Heq0) | (_ & Heq0)]; rewrite Heq0 in *.
  - exfalso. destruct (Hbad path Hget) as [E | E]; [contradiction | congruence].
  - unfold SamCliConfiguration.getSamCliLocation, SamCliConfiguration.setSamCliLocation.
    now rewrite Hrb.
Qed.

(* ================================================================= *)
(** ** [promptUser]: buttons, and timelines that settle nothing *)

Section Decided.
Variable T : Type.
Variable h : option (ButtonHandler T).
Implicit Types (s : Session T) (ev : UiEvent T).

Lemma run_actions_first_settlement (actions : list (HandlerAction T))
  (X : Settlement (option (list T))) s :
  settlement (response s) = None ->
  first_settlement actions = Some X ->
  settlement (response (fold_left (fun acc a => run_action a acc) actions s)) = Some X.
Proof.
  revert s. induction actions as [|a actions IH]; intros s Hpending Hfirst; simpl in *;
    [discriminate|].
  destruct a as [v|reason|url]; simpl.
  - injection Hfirst as <-.
    apply fold_left_preserves
      with (P := fun s' => settlement (response s') = Some (Fulfilled v)).
    + intros acc a Hacc. apply run_action_sticky. exact Hacc.
    + simpl. apply settle_pending. exact Hpending.
  - injection Hfirst as <-.
    apply fold_left_preserves
      with (P := fun s' => settlement (response s') = Some (Rejected reason)).
    + intros acc a Hacc. apply run_action_sticky. exact Hacc.
    + simpl. apply settle_pending. exact Hpending.
  - apply IH; [exact Hpending | exact Hfirst].
Qed.

(** As [callbacks_decide], for a callback that is only known to settle a
    pending promise with [X]. *)
Lemma callbacks_settle (k : EventKind) ev (c0 : Callback T)
  (X : Settlement (option (list T))) (l : list (Subscription T)) :
  (forall s', settlement (response s') = None ->
              settlement (response (run_callback ev c0 s')) = Some X) ->
  Forall (fun sub => sub_kind sub = k ->
                     sub_callback sub = c0 \/ sub_callback sub = ResolveFalse) l ->
  Exists (fun sub => sub_kind sub = k /\ sub_callback sub = c0) l ->
  forall a, settlement (response a) = None ->
  settlement
    (response
       (fold_left (fun acc sub => run_callback ev (sub_callback sub) acc)
          (filter (fun sub => EventKind_eqb (sub_kind sub) k) l) a))
  = Some X.
Proof.
  intros Hc0. induction l as [|sub l IH]; intros Hall Hex a Hpending.
  - inversion Hex.
  - inversion Hall as [|? ? Hsub Hl]; subst. simpl.
    assert (Hsettled :
      sub_callback sub = c0 ->
      settlement
        (response
           (fold_left (fun acc sub0 => run_callback ev (sub_callback sub0) acc)
              (filter (fun sub0 => EventKind_eqb (sub_kind sub0) k) l)
              (run_callback ev (sub_callback sub) a))) = Some X).
    { intros Hc. rewrite Hc.
      apply fold_left_preserves
        with (P := fun s' => settlement (response s') = Some X).
      - intros acc x' Hacc. apply run_callback_sticky. exact Hacc.
      - apply Hc0. exact Hpending. }
    destruct (EventKind_eqb (sub_kind sub) k) eqn:Ek.
    + assert (Hk : sub_kind sub = k) by (destruct (sub_kind sub), k; simpl in Ek; congruence).
      simpl. destruct (Hsub Hk) as [Hc | Hc]; [exact (Hsettled Hc)|].
      inversion Hex as [? ? Hhd | ? ? Htail]; subst; [exact (Hsettled (proj2 Hhd))|].
      rewrite Hc. apply (IH Hl Htail). simpl. exact Hpending.
    + inversion Hex as [? ? Hhd | ? ? Htail]; subst.
      * destruct Hhd as [Hk _]. subst k. destruct (sub_kind sub); simpl in Ek; discriminate.
      * apply (IH Hl Htail). exact Hpending.
Qed.

Lemma tame_button (handler : ButtonHandler T) (l : list (Subscription T)) :
  h = Some handler ->
  Forall (tame h) l ->
  Forall (fun sub => sub_kind sub = OnDidTriggerButton ->
                     sub_callback sub = CallButtonHandler handler \/
                     sub_callback sub = ResolveFalse) l.
Proof.
  intros Hh H. eapply Forall_impl; [|exact H]. intros sub. unfold tame.
  destruct (sub_callback sub) as [| |h'|]; intros Ht Hk;
    [congruence | congruence | | now right].
  destruct Ht as [_ Ht]. left. congruence.
Qed.

Lemma deliver_decides ev (X : Settlement (option (list T))) s :
  Forall (tame h) (listeners s) ->
  prompt_listening h s ->
  settlement (response s) = None ->
  decision h (selectedItems (picker s)) ev = Some X ->
  settlement (response (deliver ev s)) = Some X.
Proof.
  intros Htame (Hacc & Hhide & Hbutton) Hpending Hdec.
  destruct ev as [sel| | |b]; simpl in Hdec; try discriminate.
  - injection Hdec as <-. simpl.
    apply fire_decides with (c0 := ResolveWithSelection).
    + intros s' Hp. simpl. rewrite Hp. reflexivity.
    + apply tame_accept with (h := h). exact Htame.
    + exact Hacc.
    + exact Hpending.
  - injection Hdec as <-. simpl.
    apply fire_decides with (c0 := ResolveWithUndefined).
    + intros s' Hp. reflexivity.
    + simpl. apply tame_hide with (h := h). exact Htame.
    + simpl. exact Hhide.
    + simpl. exact Hpending.
  - destruct h as [handler|] eqn:Hh; [|discriminate].
    rewrite <- Hh in Htame.
    simpl. unfold fire.
    apply callbacks_settle with (c0 := CallButtonHandler handler).
    + intros s' Hp. simpl. apply run_actions_first_settlement; assumption.
    + apply tame_button; [exact Hh | exact Htame].
    + apply Hbutton. reflexivity.
    + exact Hpending.
Qed.

Lemma prompt_shown_listening s : prompt_listening h (prompt_shown h s).
Proof.
  unfold prompt_listening. simpl. repeat split.
  - apply Exists_app. right. left. split; reflexivity.
  - apply Exists_app. right. right. left. split; reflexivity.
  - intros handler ->. apply Exists_app. right. right. right. left. split; reflexivity.
Qed.

(** The first event that settles decides the outcome of [promptUser]. *)
Lemma promptUser_decided s (earlier : list (list (UiEvent T)))
  (pre post : list (UiEvent T)) ev (later : list (list (UiEvent T)))
  (X : Settlement (option (list T))) :
  foreign_only s ->
  forallb (forallb (quiet h)) earlier = true ->
  forallb (quiet h) pre = true ->
  decision h (selection_after (List.concat earlier ++ pre) (selectedItems (picker s))) ev
  = Some X ->
  outcome (promptUser h (earlier ++ (pre ++ ev :: post) :: later) s) = Some X /\
  remaining (promptUser h (earlier ++ (pre ++ ev :: post) :: later) s) = later /\
  settlement (response (after (promptUser h (earlier ++ (pre ++ ev :: post) :: later) s)))
  = Some X.
Proof.
  intros Hf Hq Hpre Hdec.
  rewrite promptUser_unfold.
  pose proof (@prompt_shown_tame T h s Hf) as Htame.
  rewrite (@await_response_quiet T h earlier _ (prompt_shown h s) Htame eq_refl Hq).
  assert (Hall : forallb (quiet h) (List.concat earlier ++ pre) = true).
  { rewrite forallb_app, Hpre, andb_true_r.
    rewrite forallb_forall in *. intros x Hx.
    apply in_concat in Hx. destruct Hx as (b & Hb & Hxb).
    specialize (Hq b Hb). rewrite forallb_forall in Hq. now apply Hq. }
  destruct (@deliver_all_quiet T h (List.concat earlier ++ pre) (prompt_shown h s)
              Htame Hall) as (A & B).
  destruct (deliver_all_same_subscriptions (List.concat earlier ++ pre) (prompt_shown h s))
    as (L & _).
  rewrite deliver_all_app in A, B, L.
  set (s1 := deliver_all (List.concat earlier) (prompt_shown h s)) in *.
  set (s2 := deliver_all pre s1) in *.
  assert (Hsettled : settlement (response (deliver_all (pre ++ ev :: post) s1)) = Some X).
  { rewrite deliver_all_app, deliver_all_cons. fold s2.
    apply deliver_all_sticky. apply deliver_decides.
    - rewrite L. exact Htame.
    - unfold prompt_listening. rewrite L. apply prompt_shown_listening.
    - rewrite A. reflexivity.
    - rewrite B. exact Hdec. }
  cbn [await_response]. unfold is_settled. rewrite Hsettled. rewrite Hsettled.
  cbn [after outcome remaining]. repeat split.
  apply hide_sticky.
  match goal with
  | |- settlement (response (dispose_all ?ids ?x)) = _ =>
      destruct (dispose_all_same_rest ids x) as (_ & R & _); rewrite R
  end.
  exact Hsettled.
Qed.

Lemma deliver_quiet_visible ev s :
  quiet h ev = true -> visible (picker (deliver ev s)) = visible (picker s).
Proof.
  destruct ev as [sel| | |b]; simpl; try discriminate; intros _; [reflexivity|].
  destruct (fire_same_widget OnDidTriggerButton (EvButton b) s) as (A & _).
  now rewrite A.
Qed.

Lemma deliver_all_quiet_visible (burst : list (UiEvent T)) s :
  forallb (quiet h) burst = true ->
  visible (picker (deliver_all burst s)) = visible (picker s).
Proof.
  revert s. induction burst as [|ev burst IH]; intros s Hq; simpl in *; [reflexivity|].
  apply andb_true_iff in Hq. destruct Hq as [Hev Hrest].
  fold (deliver_all burst (deliver ev s)).
  rewrite (IH _ Hrest). apply deliver_quiet_visible. exact Hev.
Qed.

End Decided.

(** X10.  The first event that settles decides, for a button as for accept
    and hide: after events that settle nothing, a button whose handler calls
    [resolve] or [reject] settles the promise of [promptUser] with the first
    such call, a rejection included; later events change nothing. *)
Theorem promptUser_event_decides :
  forall (T : Type) (h : option (ButtonHandler T)) (s : Session T)
    (earlier : list (list (UiEvent T))) (pre post : list (UiEvent T))
    (ev : UiEvent T) (later : list (list (UiEvent T)))
    (X : Settlement (option (list T))),
    foreign_only s ->
    forallb (forallb (quiet h)) earlier = true ->
    forallb (quiet h) pre = true ->
    decision h (selection_after (List.concat earlier ++ pre) (selectedItems (picker s))) ev
    = Some X ->
    outcome (promptUser h (earlier ++ (pre ++ ev :: post) :: later) s) = Some X /\
    remaining (promptUser h (earlier ++ (pre ++ ev :: post) :: later) s) = later.
Proof.
  intros T h s earlier pre post ev later X Hf Hq Hpre Hdec.
  destruct (@promptUser_decided T h s earlier pre post ev later X Hf Hq Hpre Hdec)
    as (A & B & _).
  split; assumption.
Qed.

Lemma promptUser_event_decides_witness :
  outcome
    (promptUser
       (Some (fun b : QuickInputButton =>
                match b with
                | Back => [OpenExternal samInitDocUrl; CallReject "no way back";
                           CallResolve (Some ["late"])]
                | _ => []
                end))
       ([[EvSelect ["A"]]] ++ ([EvButton HelpButton] ++ EvButton Back :: [EvAccept])
          :: [[EvHide]])
       (newSession (emptyQuickPick string)))
  = Some (Rejected "no way back") /\
  remaining
    (promptUser
       (Some (fun b : QuickInputButton =>
                match b with
                | Back => [OpenExternal samInitDocUrl; CallReject "no way back";
                           CallResolve (Some ["late"])]
                | _ => []
                end))
       ([[EvSelect ["A"]]] ++ ([EvButton HelpButton] ++ EvButton Back :: [EvAccept])
          :: [[EvHide]])
       (newSession (emptyQuickPick string)))
  = [[EvHide]].
Proof.
  apply (@promptUser_event_decides string
           (Some (fun b : QuickInputButton =>
                    match b with
                    | Back => [OpenExternal samInitDocUrl; CallReject "no way back";
                               CallResolve (Some ["late"])]
                    | _ => []
                    end))
           (newSession (emptyQuickPick string))
           [[EvSelect ["A"]]] [EvButton HelpButton] [EvAccept] (EvButton Back)
           [[EvHide]] (Rejected "no way back")).
  - constructor.
  - reflexivity.
  - reflexivity.
  - reflexivity.
Defined.

(** X11.  Buttons do not accept or cancel the picker by themselves: while
    only the selection changes and buttons are pressed whose handler (if any)
    calls neither [resolve] nor [reject], [promptUser] does not return; the
    picker stays shown and the listeners stay registered. *)
Theorem promptUser_waits_on_quiet_events :
  forall (T : Type) (h : option (ButtonHandler T)) (s : Session T)
    (bursts : list (list (UiEvent T))),
    foreign_only s ->
    forallb (forallb (quiet h)) bursts = true ->
    outcome (promptUser h bursts s) = None /\
    remaining (promptUser h bursts s) = [] /\
    visible (picker (after (promptUser h bursts s))) = true /\
    listeners (after (promptUser h bursts s))
    = listeners s ++ prompt_subscriptions h (nextSubscription s).
Proof.
  intros T h s bursts Hf Hq.
  rewrite promptUser_unfold.
  pose proof (@prompt_shown_tame T h s Hf) as Htame.
  pose proof (@await_response_quiet T h bursts [] (prompt_shown h s) Htame eq_refl Hq)
    as Haw.
  rewrite app_nil_r in Haw. rewrite Haw.
  assert (Hall : forallb (quiet h) (List.concat bursts) = true).
  { rewrite forallb_forall in *. intros x Hx.
    apply in_concat in Hx. destruct Hx as (b & Hb & Hxb).
    specialize (Hq b Hb). rewrite forallb_forall in Hq. now apply Hq. }
  destruct (@deliver_all_quiet T h (List.concat bursts) (prompt_shown h s) Htame Hall)
    as (A & _).
  destruct (deliver_all_same_subscriptions (List.concat bursts) (prompt_shown h s))
    as (L & _).
  pose proof (@deliver_all_quiet_visible T h (List.concat bursts) (prompt_shown h s) Hall)
    as V.
  cbn [await_response]. rewrite A.
  change (settlement (response (prompt_shown h s))) with (@None (Settlement (option (list T)))).
  cbn [after outcome remaining].
  repeat split.
  - rewrite V. reflexivity.
  - rewrite L. reflexivity.
Qed.

Lemma promptUser_waits_on_quiet_events_witness :
  outcome (promptUser (Some (DefaultContext.buttonHandler samInitDocUrl))
             [[EvButton HelpButton]; [EvSelect [mkItem "nodejs12.x" false ""]]]
             (newSession (emptyQuickPick QuickPickItem))) = None /\
  remaining (promptUser (Some (DefaultContext.buttonHandler samInitDocUrl))
               [[EvButton HelpButton]; [EvSelect [mkItem "nodejs12.x" false ""]]]
               (newSession (emptyQuickPick QuickPickItem))) = [] /\
  visible (picker (after (promptUser (Some (DefaultContext.buttonHandler samInitDocUrl))
             [[EvButton HelpButton]; [EvSelect [mkItem "nodejs12.x" false ""]]]
             (newSession (emptyQuickPick QuickPickItem))))) = true /\
  listeners (after (promptUser (Some (DefaultContext.buttonHandler samInitDocUrl))
             [[EvButton HelpButton]; [EvSelect [mkItem "nodejs12.x" false ""]]]
             (newSession (emptyQuickPick QuickPickItem))))
  = listeners (newSession (emptyQuickPick QuickPickItem))
    ++ prompt_subscriptions (Some (DefaultContext.buttonHandler samInitDocUrl))
         (nextSubscription (newSession (emptyQuickPick QuickPickItem))).
Proof.
  apply (@promptUser_waits_on_quiet_events QuickPickItem
           (Some (DefaultContext.buttonHandler samInitDocUrl))
           (newSession (emptyQuickPick QuickPickItem))
           [[EvButton HelpButton]; [EvSelect [mkItem "nodejs12.x" false ""]]]).
  - constructor.
  - reflexivity.
Defined.

(* ================================================================= *)
(** ** [promptUserForTemplate]: what it returns *)

(** X12.  [promptUserForTemplate] returns a template only for an accept with
    exactly one item selected, the label of that item; it returns [undefined]
    when the picker is hidden, when Back is pressed, and when nothing or more
    than one item is selected on accept, the last with a warning in the log.
    The help button and changes of selection before that do not end the
    prompt. *)
Theorem promptUserForTemplate_answer :
  forall (this : DefaultContext.DefaultCreateNewSamAppWizardContext)
    (currRuntime : option Runtime) (currLanguage : option SamLambdaTemplate)
    (earlier : list (list (UiEvent QuickPickItem)))
    (pre post : list (UiEvent QuickPickItem)) (ev : UiEvent QuickPickItem)
    (later : list (list (UiEvent QuickPickItem))),
    forallb (forallb (quiet (Some (DefaultContext.buttonHandler schemaCodeDownloadDocUrl))))
      earlier = true ->
    forallb (quiet (Some (DefaultContext.buttonHandler schemaCodeDownloadDocUrl))) pre
    = true ->
    let sel := selection_after (List.concat earlier ++ pre) [] in
    let r := DefaultContext.promptUserForTemplate this currRuntime currLanguage
               (earlier ++ (pre ++ ev :: post) :: later) in
    (ev = EvHide \/ ev = EvButton Back ->
     DefaultContext.answer r = Some (Fulfilled None) /\ DefaultContext.logged r = []) /\
    (ev = EvAccept ->
     DefaultContext.answer r
     = Some (Fulfilled (match sel with
                        | [item] => Some (label item)
                        | _ => None
                        end)) /\
     DefaultContext.logged r
     = match sel with
       | _ :: _ :: _ => [Warn (unexpected_count_message (List.length sel))]
       | _ => []
       end).
Proof.
  intros this currRuntime currLanguage earlier pre post ev later Hq Hpre sel r.
  assert (Hout : forall (qp : QuickPick QuickPickItem) X,
            selectedItems qp = [] ->
            decision (Some (DefaultContext.buttonHandler schemaCodeDownloadDocUrl)) sel ev
            = Some X ->
            outcome (promptUser (Some (DefaultContext.buttonHandler schemaCodeDownloadDocUrl))
                       (earlier ++ (pre ++ ev :: post) :: later) (newSession qp))
            = Some X).
  { intros qp X Hsel Hdec.
    apply (@promptUser_decided QuickPickItem _ (newSession qp) earlier pre post ev later X).
    - constructor.
    - exact Hq.
    - exact Hpre.
    - simpl. rewrite Hsel. exact Hdec. }
  subst r. unfold DefaultContext.promptUserForTemplate. cbv zeta.
  split.
  - intros Hev.
    match goal with
    | |- context [promptUser _ _ (newSession ?qp)] =>
        rewrite (Hout qp (Fulfilled None) eq_refl)
          by (destruct Hev as [-> | ->]; reflexivity)
    end.
    split; reflexivity.
  - intros ->.
    match goal with
    | |- context [promptUser _ _ (newSession ?qp)] =>
        rewrite (Hout qp (Fulfilled (Some sel)) eq_refl) by reflexivity
    end.
    destruct sel as [|item [|item' rest]]; split; reflexivity.
Qed.

Lemma promptUserForTemplate_answer_witness :
  let sel := selection_after
               (List.concat [[EvButton HelpButton]]
                ++ [EvSelect [mkItem "helloworld" false ""]]) [] in
  let r := DefaultContext.promptUserForTemplate
             (DefaultContext.construct ["nodejs12.x"] ["helloworld"] ["helloworld"])
             (Some "nodejs12.x") None
             ([[EvButton HelpButton]]
                ++ ([EvSelect [mkItem "helloworld" false ""]] ++ EvAccept :: [])
                :: []) in
  (@EvAccept QuickPickItem = EvHide \/ @EvAccept QuickPickItem = EvButton Back ->
   DefaultContext.answer r = Some (Fulfilled None) /\ DefaultContext.logged r = []) /\
  (@EvAccept QuickPickItem = EvAccept ->
   DefaultContext.answer r
   = Some (Fulfilled (match sel with
                      | [item] => Some (label item)
                      | _ => None
                      end)) /\
   DefaultContext.logged r
   = match sel with
     | _ :: _ :: _ => [Warn (unexpected_count_message (List.length sel))]
     | _ => []
     end).
Proof.
  apply (@promptUserForTemplate_answer
           (DefaultContext.construct ["nodejs12.x"] ["helloworld"] ["helloworld"])
           (Some "nodejs12.x") None [[EvButton HelpButton]]
           [EvSelect [mkItem "helloworld" false ""]] [] EvAccept []).
  - reflexivity.
  - reflexivity.
Defined.

(** X13.  For a runtime other than ['python3.7'] and ['python3.6'],
    [promptUserForTemplate] leaves the context as it is and offers the
    hello-world set the context holds at that moment. *)
Theorem promptUserForTemplate_other_runtime :
  forall (this : DefaultContext.DefaultCreateNewSamAppWizardContext)
    (currRuntime : option Runtime) (currLanguage : option SamLambdaTemplate)
    (bursts : list (list (UiEvent QuickPickItem))),
    currRuntime <> Some "python3.7" ->
    currRuntime <> Some "python3.6" ->
    DefaultContext.context_after
      (DefaultContext.promptUserForTemplate this currRuntime currLanguage bursts) = this /\
    map label
      (items (DefaultContext.created
                (DefaultContext.promptUserForTemplate this currRuntime currLanguage bursts)))
    = DefaultContext.lambdaTemplatesHelloWorld this.
Proof.
  intros this currRuntime currLanguage bursts H37 H36.
  assert (E37 : Js.strict_eq currRuntime "python3.7" = false).
  { destruct (Js.strict_eq currRuntime "python3.7") eqn:E; [|reflexivity].
    apply strict_eq_true in E. contradiction. }
  assert (E36 : Js.strict_eq currRuntime "python3.6" = false).
  { destruct (Js.strict_eq currRuntime "python3.6") eqn:E; [|reflexivity].
    apply strict_eq_true in E. contradiction. }
  unfold DefaultContext.promptUserForTemplate. rewrite E37, E36. cbv zeta.
  destruct (outcome (promptUser _ bursts _)) as [[choices|reason]|];
    try destruct (verifySinglePickerOutput choices) as [val log];
    cbn [DefaultContext.context_after DefaultContext.created];
    simpl; rewrite templateItem_labels; split; reflexivity.
Qed.

Lemma promptUserForTemplate_other_runtime_witness :
  DefaultContext.context_after
    (DefaultContext.promptUserForTemplate
       (DefaultContext.construct ["nodejs12.x"] ["helloworld"; "eventBridge-schema-app"]
          ["helloworld"])
       (Some "nodejs12.x") None [[EvHide]])
  = DefaultContext.construct ["nodejs12.x"] ["helloworld"; "eventBridge-schema-app"]
      ["helloworld"] /\
  map label
    (items (DefaultContext.created
              (DefaultContext.promptUserForTemplate
                 (DefaultContext.construct ["nodejs12.x"]
                    ["helloworld"; "eventBridge-schema-app"] ["helloworld"])
                 (Some "nodejs12.x") None [[EvHide]])))
  = DefaultContext.lambdaTemplatesHelloWorld
      (DefaultContext.construct ["nodejs12.x"] ["helloworld"; "eventBridge-schema-app"]
         ["helloworld"]).
Proof.
  apply (@promptUserForTemplate_other_runtime
           (DefaultContext.construct ["nodejs12.x"]
              ["helloworld"; "eventBridge-schema-app"] ["helloworld"])
           (Some "nodejs12.x") None [[EvHide]]).
  - discriminate.
  - discriminate.
Defined.

(* ================================================================= *)
(** ** [promptUserWithBusyMessage]: the paths through the busy phase *)

Section BusyPaths.
Variable T : Type.
Implicit Types (s : Session T) (ev : UiEvent T).

Lemma ui_bursts_map (l : list (list (UiEvent T))) : ui_bursts (map Ui l) = l.
Proof. induction l as [|b l IH]; simpl; [reflexivity | now rewrite IH]. Qed.

(** While the busy phase waits, an event other than hide changes the
    selection at most. *)
Lemma deliver_busy_idle (n : nat) ev s :
  busy_waiting n s -> is_hide ev = false ->
  response (deliver ev s) = response s /\
  selectedItems (picker (deliver ev s)) = selection_after [ev] (selectedItems (picker s)) /\
  visible (picker (deliver ev s)) = visible (picker s).
Proof.
  intros [L P] Hev. destruct ev as [sel| | |b]; simpl in *; try discriminate.
  - repeat split.
  - unfold fire. rewrite L. simpl. repeat split.
  - unfold fire. rewrite L. simpl. repeat split.
Qed.

Lemma deliver_all_busy_idle (n : nat) (b : list (UiEvent T)) s :
  busy_waiting n s -> existsb (@is_hide T) b = false ->
  response (deliver_all b s) = response s /\
  selectedItems (picker (deliver_all b s)) = selection_after b (selectedItems (picker s)) /\
  visible (picker (deliver_all b s)) = visible (picker s).
Proof.
  revert s. induction b as [|ev b IH]; intros s K Hb; simpl in *; [repeat split|].
  apply orb_false_iff in Hb. destruct Hb as [Hev Hb].
  destruct (@deliver_busy_idle n ev s K Hev) as (A & B & V).
  destruct (IH _ (@deliver_busy_waiting T n ev s K Hev) Hb) as (A' & B' & V').
  fold (deliver_all b (deliver ev s)).
  rewrite A', B', V', A, B, V. repeat split.
Qed.

Lemma await_didComplete_idle (n : nat) (pre : list (list (UiEvent T)))
  (rest : list (Turn T)) (awaiting : bool) (unhandled : list string) s :
  busy_waiting n s ->
  no_hide pre = true ->
  exists s', busy_waiting n s' /\ same_subscriptions s s' /\
    response s' = response s /\
    selectedItems (picker s') = selection_after (List.concat pre) (selectedItems (picker s)) /\
    visible (picker s') = visible (picker s) /\
    await_didComplete (map Ui pre ++ rest) awaiting unhandled s
    = await_didComplete rest awaiting unhandled s'.
Proof.
  revert s. induction pre as [|b pre IH]; intros s K Hpre; simpl in *.
  - exists s. repeat split; try reflexivity; apply K.
  - apply andb_true_iff in Hpre. destruct Hpre as [Hb Hpre].
    apply negb_true_iff in Hb.
    pose proof (@deliver_all_busy_waiting T n b s K Hb) as K'.
    destruct (@deliver_all_busy_idle n b s K Hb) as (A & B & V).
    unfold is_settled. rewrite (proj2 K').
    destruct (IH _ K' Hpre) as (s' & K'' & Hsame & A' & B' & V' & Heq).
    exists s'. split; [exact K''|].
    split; [eapply same_subscriptions_trans;
            [apply deliver_all_same_subscriptions | exact Hsame]|].
    rewrite A', B', V', A, B, V. rewrite selection_after_app.
    repeat split. exact Heq.
Qed.

(** A hidden widget stays hidden, and a hide event hides it. *)
Lemma deliver_hidden ev s :
  visible (picker s) = false \/ is_hide ev = true ->
  visible (picker (deliver ev s)) = false.
Proof.
  intros H. destruct ev as [sel| | |b]; simpl in *.
  - destruct H as [H | H]; [exact H | discriminate].
  - destruct (fire_same_widget OnDidAccept EvAccept s) as (A & _). rewrite A.
    destruct H as [H | H]; [exact H | discriminate].
  - destruct (fire_same_widget OnDidHide EvHide
                (set_picker (set_visible false (picker s)) s)) as (A & _).
    rewrite A. reflexivity.
  - destruct (fire_same_widget OnDidTriggerButton (EvButton b) s) as (A & _). rewrite A.
    destruct H as [H | H]; [exact H | discriminate].
Qed.

Lemma deliver_all_hidden (b : list (UiEvent T)) s :
  visible (picker s) = false \/ existsb (@is_hide T) b = true ->
  visible (picker (deliver_all b s)) = false.
Proof.
  revert s. induction b as [|ev b IH]; intros s H; simpl in *.
  - destruct H as [H | H]; [exact H | discriminate].
  - fold (deliver_all b (deliver ev s)). apply IH.
    destruct H as [H | H].
    + left. apply deliver_hidden. now left.
    + apply orb_true_iff in H. destruct H as [H | H]; [|now right].
      left. apply deliver_hidden. now right.
Qed.

(** What [promptUser] leaves behind when its promise has been settled. *)
Lemma promptUser_settled_state (h : option (ButtonHandler T))
  (bursts : list (list (UiEvent T))) s (x : Settlement (option (list T))) :
  well_formed s ->
  outcome (promptUser h bursts s) = Some x ->
  listeners (after (promptUser h bursts s)) = listeners s /\
  visible (picker (after (promptUser h bursts s))) = false /\
  busy (picker (after (promptUser h bursts s))) = busy (picker s) /\
  enabled (picker (after (promptUser h bursts s))) = enabled (picker s).
Proof.
  intros Hwf. rewrite promptUser_unfold.
  pose proof (await_response_same_subscriptions bursts (prompt_shown h s)) as Hsame.
  destruct (await_response bursts (prompt_shown h s)) as [s5 rest]. simpl in Hsame.
  destruct (settlement (response s5)) as [r|]; cbn [after outcome]; [|discriminate].
  intros _. destruct Hsame as (Hl & _ & Hb & He).
  set (s6 := dispose_all (map (@sub_id T) (prompt_subscriptions h (nextSubscription s))) s5).
  destruct (hide_hidden s6) as (Hv & Hl').
  destruct (dispose_all_same_rest
              (map (@sub_id T) (prompt_subscriptions h (nextSubscription s))) s5)
    as (Hp & _).
  fold s6 in Hp.
  assert (Hflags : busy (picker (hide s6)) = busy (picker s6) /\
                   enabled (picker (hide s6)) = enabled (picker s6)).
  { unfold hide. destruct (visible (picker s6)); [|split; reflexivity].
    destruct (deliver_same_subscriptions EvHide s6) as (_ & _ & B & E). split; assumption. }
  destruct Hflags as (Hb' & He').
  split; [|split; [exact Hv | split]].
  - rewrite Hl'. apply dispose_all_prompt_subscriptions; [exact Hwf | exact Hl].
  - rewrite Hb', Hp, Hb. reflexivity.
  - rewrite He', Hp, He. reflexivity.
Qed.

(** The population task resolves while the busy phase waits: the prompt
    phase runs on the widget made ready, with the hide listener of the busy
    phase still on it. *)
Lemma busy_population_done (h : option (ButtonHandler T)) s
  (pre : list (list (UiEvent T))) (post : list (list (UiEvent T))) :
  listeners s = [] ->
  no_hide pre = true ->
  exists mid,
    listeners mid = [mkSub (nextSubscription s) OnDidHide ResolveFalse] /\
    nextSubscription mid = S (nextSubscription s) /\
    selectedItems (picker mid) = selection_after (List.concat pre) (selectedItems (picker s)) /\
    busy (picker mid) = false /\ enabled (picker mid) = true /\
    promptUserWithBusyMessage h (map Ui pre ++ PopulatorFulfilled :: map Ui post) s
    = mkBusyReturn (after (promptUser h post mid)) (outcome (promptUser h post mid))
        true [].
Proof.
  intros Hl Hpre.
  rewrite promptUserWithBusyMessage_unfold.
  assert (K : busy_waiting (nextSubscription s) (busy_shown s))
    by (split; simpl; [rewrite Hl|]; reflexivity).
  destruct (@await_didComplete_idle _ pre (PopulatorFulfilled :: map Ui post)
              true [] _ K Hpre) as (s1 & K1 & Hsame1 & _ & Hsel & _ & Heq1).
  rewrite Heq1. cbn [await_didComplete].
  change (didComplete (set_didComplete (settle (Fulfilled true) (didComplete s1)) s1))
    with (settle (Fulfilled true) (didComplete s1)).
  rewrite settle_is_settled.
  change (didComplete (set_didComplete (settle (Fulfilled true) (didComplete s1)) s1))
    with (settle (Fulfilled true) (didComplete s1)).
  rewrite (settle_pending (Fulfilled true) _ (proj2 K1)).
  rewrite ui_bursts_map.
  exists (set_picker
            (makeQuickPickNotBusy
               (picker (set_didComplete (settle (Fulfilled true) (didComplete s1)) s1)))
            (set_didComplete (settle (Fulfilled true) (didComplete s1)) s1)).
  split; [exact (proj1 K1)|].
  split; [destruct Hsame1 as (_ & N & _); exact N|].
  split; [exact Hsel|].
  split; [reflexivity|]. split; reflexivity.
Qed.

End BusyPaths.

(** X14.  When the population task resolves before any hide event, the
    picker is made ready (enabled, not busy) and the prompt phase runs: the
    first event that settles decides the result as in [promptUser], with the
    selection as the events of both phases left it, and the widget is hidden
    at the end. *)
Theorem busy_population_done_then_event_decides :
  forall (T : Type) (h : option (ButtonHandler T)) (s : Session T)
    (pre earlier : list (list (UiEvent T))) (pre' post' : list (UiEvent T))
    (ev : UiEvent T) (later : list (list (UiEvent T)))
    (X : Settlement (option (list T))),
    listeners s = [] ->
    no_hide pre = true ->
    forallb (forallb (quiet h)) earlier = true ->
    forallb (quiet h) pre' = true ->
    decision h
      (selection_after (List.concat pre ++ List.concat earlier ++ pre')
         (selectedItems (picker s))) ev = Some X ->
    let r := promptUserWithBusyMessage h
               (map Ui pre ++ PopulatorFulfilled
                  :: map Ui (earlier ++ (pre' ++ ev :: post') :: later)) s in
    busy_outcome r = Some X /\
    promptStarted r = true /\
    busy (picker (busy_after r)) = false /\
    enabled (picker (busy_after r)) = true /\
    visible (picker (busy_after r)) = false.
Proof.
  intros T h s pre earlier pre' post' ev later X Hl Hpre Hq Hq' Hdec r. subst r.
  destruct (@busy_population_done T h s pre (earlier ++ (pre' ++ ev :: post') :: later)
              Hl Hpre) as (mid & Lm & Nm & Sm & Bm & Em & Heq).
  rewrite Heq. cbn [busy_outcome promptStarted busy_after].
  assert (Hf : foreign_only mid).
  { unfold foreign_only. rewrite Lm. repeat constructor. }
  assert (Hwf : well_formed mid).
  { unfold well_formed. rewrite Lm, Nm. repeat constructor. }
  destruct (@promptUser_decided T h mid earlier pre' post' ev later X Hf Hq Hq')
    as (Hout & _ & _).
  { rewrite Sm. rewrite <- selection_after_app. exact Hdec. }
  destruct (@promptUser_settled_state T h _ mid X Hwf Hout) as (_ & V & B & E).
  rewrite Hout, B, E, Bm, Em, V. repeat split.
Qed.

Lemma busy_population_done_then_event_decides_witness :
  let r := promptUserWithBusyMessage None
             (map Ui [[EvSelect ["X"]]] ++ PopulatorFulfilled
                :: map Ui ([] ++ ([EvSelect ["Y"]] ++ EvAccept :: [EvHide]) :: []))
             (newSession (emptyQuickPick string)) in
  busy_outcome r
  = Some (Fulfilled
            (Some (selection_after
                     (List.concat [[EvSelect ["X"]]] ++ List.concat []
                      ++ [EvSelect ["Y"]])
                     (selectedItems (picker (newSession (emptyQuickPick string))))))) /\
  promptStarted r = true /\
  busy (picker (busy_after r)) = false /\
  enabled (picker (busy_after r)) = true /\
  visible (picker (busy_after r)) = false.
Proof.
  apply (@busy_population_done_then_event_decides string None
           (newSession (emptyQuickPick string)) [[EvSelect ["X"]]] []
           [EvSelect ["Y"]] [EvHide] EvAccept []).
  - reflexivity.
  - reflexivity.
  - reflexivity.
  - reflexivity.
  - reflexivity.
Defined.

(** X15.  On that path the hide listener of the busy phase is never disposed
    of: when the call has returned, it is the one listener left on the
    widget. *)
Theorem busy_hide_listener_outlives_prompt :
  forall (T : Type) (h : option (ButtonHandler T)) (s : Session T)
    (pre earlier : list (list (UiEvent T))) (pre' post' : list (UiEvent T))
    (ev : UiEvent T) (later : list (list (UiEvent T)))
    (X : Settlement (option (list T))),
    listeners s = [] ->
    no_hide pre = true ->
    forallb (forallb (quiet h)) earlier = true ->
    forallb (quiet h) pre' = true ->
    decision h
      (selection_after (List.concat pre ++ List.concat earlier ++ pre')
         (selectedItems (picker s))) ev = Some X ->
    listeners
      (busy_after
         (promptUserWithBusyMessage h
            (map Ui pre ++ PopulatorFulfilled
               :: map Ui (earlier ++ (pre' ++ ev :: post') :: later)) s))
    = [mkSub (nextSubscription s) OnDidHide ResolveFalse].
Proof.
  intros T h s pre earlier pre' post' ev later X Hl Hpre Hq Hq' Hdec.
  destruct (@busy_population_done T h s pre (earlier ++ (pre' ++ ev :: post') :: later)
              Hl Hpre) as (mid & Lm & Nm & Sm & Bm & Em & Heq).
  rewrite Heq. cbn [busy_after].
  assert (Hf : foreign_only mid).
  { unfold foreign_only. rewrite Lm. repeat constructor. }
  assert (Hwf : well_formed mid).
  { unfold well_formed. rewrite Lm, Nm. repeat constructor. }
  destruct (@promptUser_decided T h mid earlier pre' post' ev later X Hf Hq Hq')
    as (Hout & _ & _).
  { rewrite Sm. rewrite <- selection_after_app. exact Hdec. }
  destruct (@promptUser_settled_state T h _ mid X Hwf Hout) as (L & _).
  rewrite L. exact Lm.
Qed.

Lemma busy_hide_listener_outlives_prompt_witness :
  listeners
    (busy_after
       (promptUserWithBusyMessage None
          (map Ui [] ++ PopulatorFulfilled
             :: map Ui ([] ++ ([EvSelect ["Y"]] ++ EvAccept :: []) :: []))
          (newSession (emptyQuickPick string))))
  = [mkSub (nextSubscription (newSession (emptyQuickPick string))) OnDidHide ResolveFalse].
Proof.
  apply (@busy_hide_listener_outlives_prompt string None
           (newSession (emptyQuickPick string)) [] [] [EvSelect ["Y"]] [] EvAccept []
           (Fulfilled (Some ["Y"]))).
  - reflexivity.
  - reflexivity.
  - reflexivity.
  - reflexivity.
  - reflexivity.
Defined.

(** X16.  When the widget is hidden while the population task runs, the call
    disposes of its hide listener and returns with the widget hidden, but
    still busy and disabled: nothing undoes [makeQuickPickBusy]. *)
Theorem busy_cancel_releases_and_stays_busy :
  forall (T : Type) (h : option (ButtonHandler T)) (s : Session T)
    (pre : list (list (UiEvent T))) (b : list (UiEvent T)) (post : list (Turn T)),
    listeners s = [] ->
    no_hide pre = true ->
    existsb (@is_hide T) b = true ->
    let r := promptUserWithBusyMessage h (map Ui pre ++ Ui b :: post) s in
    busy_outcome r = Some (Fulfilled None) /\
    listeners (busy_after r) = [] /\
    visible (picker (busy_after r)) = false /\
    busy (picker (busy_after r)) = true /\
    enabled (picker (busy_after r)) = false.
Proof.
  intros T h s pre b post Hl Hpre Hb r. subst r.
  rewrite promptUserWithBusyMessage_unfold.
  assert (K : busy_waiting (nextSubscription s) (busy_shown s))
    by (split; simpl; [rewrite Hl|]; reflexivity).
  destruct (@await_didComplete_idle T _ pre (Ui b :: post) true [] _ K Hpre)
    as (s1 & K1 & Hsame1 & _ & _ & _ & Heq1).
  rewrite Heq1. cbn [await_didComplete].
  pose proof (@deliver_all_busy_cancelled T _ b s1 K1 Hb) as Hc.
  unfold is_settled. rewrite Hc. rewrite Hc.
  cbn [busy_outcome busy_after].
  destruct (deliver_all_same_subscriptions b s1) as (L2 & _ & B2 & E2).
  destruct Hsame1 as (_ & _ & B1 & E1).
  split; [reflexivity|]. split; [|split; [|split]].
  - simpl. rewrite L2, (proj1 K1). simpl. rewrite Nat.eqb_refl. reflexivity.
  - simpl. apply deliver_all_hidden. now right.
  - simpl. rewrite B2, B1. reflexivity.
  - simpl. rewrite E2, E1. reflexivity.
Qed.

Lemma busy_cancel_releases_and_stays_busy_witness :
  let r := promptUserWithBusyMessage None
             (map Ui [[EvSelect ["X"]]] ++ Ui [EvHide] :: [PopulatorFulfilled])
             (newSession (emptyQuickPick string)) in
  busy_outcome r = Some (Fulfilled None) /\
  listeners (busy_after r) = [] /\
  visible (picker (busy_after r)) = false /\
  busy (picker (busy_after r)) = true /\
  enabled (picker (busy_after r)) = false.
Proof.
  apply (@busy_cancel_releases_and_stays_busy string None
           (newSession (emptyQuickPick string)) [[EvSelect ["X"]]] [EvHide]
           [PopulatorFulfilled]).
  - reflexivity.
  - reflexivity.
  - reflexivity.
Defined.

(** X17.  As long as the population task has not settled and the widget is
    not hidden, the call does not return, whatever else the user does: the
    picker stays shown, busy and disabled, and the prompt phase is not
    started. *)
Theorem busy_waits_for_population :
  forall (T : Type) (h : option (ButtonHandler T)) (s : Session T)
    (pre : list (list (UiEvent T))),
    listeners s = [] ->
    no_hide pre = true ->
    let r := promptUserWithBusyMessage h (map Ui pre) s in
    busy_outcome r = None /\
    promptStarted r = false /\
    visible (picker (busy_after r)) = true /\
    busy (picker (busy_after r)) = true /\
    enabled (picker (busy_after r)) = false.
Proof.
  intros T h s pre Hl Hpre r. subst r.
  rewrite promptUserWithBusyMessage_unfold.
  assert (K : busy_waiting (nextSubscription s) (busy_shown s))
    by (split; simpl; [rewrite Hl|]; reflexivity).
  destruct (@await_didComplete_idle T _ pre [] true [] _ K Hpre)
    as (s1 & K1 & Hsame1 & _ & _ & V1 & Heq1).
  rewrite app_nil_r in Heq1. rewrite Heq1. cbn [await_didComplete].
  rewrite (proj2 K1). cbn [busy_outcome promptStarted busy_after].
  destruct Hsame1 as (_ & _ & B1 & E1).
  rewrite V1, B1, E1. repeat split.
Qed.

Lemma busy_waits_for_population_witness :
  let r := promptUserWithBusyMessage None
             (map Ui [[EvSelect ["X"]; EvAccept]; [EvButton Back]])
             (newSession (emptyQuickPick string)) in
  busy_outcome r = None /\
  promptStarted r = false /\
  visible (picker (busy_after r)) = true /\
  busy (picker (busy_after r)) = true /\
  enabled (picker (busy_after r)) = false.
Proof.
  apply (@busy_waits_for_population string None (newSession (emptyQuickPick string))
           [[EvSelect ["X"]; EvAccept]; [EvButton Back]]).
  - reflexivity.
  - reflexivity.
Defined.

(* ================================================================= *)
(** ** [promptUser] rejects only through the button handler *)

Section NoRejection.
Variable T : Type.
Variable h : option (ButtonHandler T).
Hypothesis handler_never_rejects : never_rejects h.
Implicit Types (s : Session T) (ev : UiEvent T).

Lemma settle_not_rejected (x : Settlement (option (list T)))
  (p : Promise (option (list T))) :
  not_rejected p -> (forall reason, x <> Rejected reason) -> not_rejected (settle x p).
Proof.
  unfold not_rejected, settle. intros Hp Hx reason.
  destruct (settlement p) as [y|] eqn:E; simpl.
  - apply Hp.
  - intros H. injection H as H. exact (Hx reason H).
Qed.

Lemma run_action_not_rejected (a : HandlerAction T) s :
  rejects a = false ->
  not_rejected (response s) -> not_rejected (response (run_action a s)).
Proof.
  destruct a as [v|reason|url]; simpl; intros Ha Hs; try discriminate; [|exact Hs].
  apply settle_not_rejected; [exact Hs | discriminate].
Qed.

Lemma run_callback_not_rejected ev (sub : Subscription T) s :
  tame h sub ->
  not_rejected (response s) ->
  not_rejected (response (run_callback ev (sub_callback sub) s)).
Proof.
  unfold tame. destruct (sub_callback sub) as [| |handler|]; simpl; intros Ht Hs.
  - apply settle_not_rejected; [exact Hs | discriminate].
  - apply settle_not_rejected; [exact Hs | discriminate].
  - destruct ev as [sel| | |b]; try exact Hs.
    destruct Ht as [_ Hh].
    pose proof (handler_never_rejects b Hh) as Hb.
    apply fold_left_preserves_in
      with (P := fun s' => not_rejected (response s')); [|exact Hs].
    intros acc a Hin Hacc. apply run_action_not_rejected; [|exact Hacc].
    destruct (rejects a) eqn:Ra; [|reflexivity].
    assert (existsb (@rejects T) (handler b) = true)
      by (apply existsb_exists; exists a; split; assumption).
    congruence.
  - exact Hs.
Qed.

Lemma deliver_not_rejected ev s :
  Forall (tame h) (listeners s) ->
  not_rejected (response s) -> not_rejected (response (deliver ev s)).
Proof.
  intros Htame Hs.
  assert (Hfire : forall k e s0, listeners s0 = listeners s ->
                                 not_rejected (response s0) ->
                                 not_rejected (response (fire k e s0))).
  { intros k e s0 Hl H0. unfold fire.
    apply fold_left_preserves_in
      with (P := fun s' => not_rejected (response s')); [|exact H0].
    intros acc sub Hin Hacc. apply filter_In in Hin. destruct Hin as [Hin _].
    apply run_callback_not_rejected; [|exact Hacc].
    rewrite Forall_forall in Htame. apply Htame. rewrite <- Hl. exact Hin. }
  destruct ev; simpl; try exact Hs; apply Hfire; try reflexivity; exact Hs.
Qed.

Lemma deliver_all_not_rejected (burst : list (UiEvent T)) s :
  Forall (tame h) (listeners s) ->
  not_rejected (response s) -> not_rejected (response (deliver_all burst s)).
Proof.
  revert s. induction burst as [|ev burst IH]; intros s Htame Hs; simpl; [exact Hs|].
  fold (deliver_all burst (deliver ev s)). apply IH.
  - destruct (deliver_same_subscriptions ev s) as (L & _). rewrite L. exact Htame.
  - apply deliver_not_rejected; assumption.
Qed.

Lemma await_response_not_rejected (bursts : list (list (UiEvent T))) s :
  Forall (tame h) (listeners s) ->
  not_rejected (response s) ->
  not_rejected (response (fst (await_response bursts s))).
Proof.
  revert s. induction bursts as [|b rest IH]; intros s Htame Hs; simpl; [exact Hs|].
  destruct (is_settled (response (deliver_all b s))); simpl.
  - apply deliver_all_not_rejected; assumption.
  - apply IH.
    + destruct (deliver_all_same_subscriptions b s) as (L & _). rewrite L. exact Htame.
    + apply deliver_all_not_rejected; assumption.
Qed.

Lemma promptUser_not_rejected (bursts : list (list (UiEvent T))) s (reason : string) :
  foreign_only s ->
  outcome (promptUser h bursts s) <> Some (Rejected reason).
Proof.
  intros Hf. rewrite promptUser_unfold.
  pose proof (@await_response_not_rejected bursts (prompt_shown h s)
                (@prompt_shown_tame T h s Hf)) as Hnr.
  destruct (await_response bursts (prompt_shown h s)) as [s5 rest]. simpl in Hnr.
  specialize (Hnr ltac:(intros r; simpl; discriminate)).
  destruct (settlement (response s5)) as [x|] eqn:E; cbn [outcome]; [|discriminate].
  intros H. injection H as ->. exact (Hnr reason E).
Qed.

End NoRejection.



(** X19.  [promptUserForTemplate] never rejects: whatever the user does, its
    promise is pending or resolves to a template or to [undefined]. *)
Theorem promptUserForTemplate_never_rejects :
  forall (this : DefaultContext.DefaultCreateNewSamAppWizardContext)
    (currRuntime : option Runtime) (currLanguage : option SamLambdaTemplate)
    (bursts : list (list (UiEvent QuickPickItem))) (reason : string),
    DefaultContext.answer
      (DefaultContext.promptUserForTemplate this currRuntime currLanguage bursts)
    <> Some (Rejected reason).
Proof.
  intros this currRuntime currLanguage bursts reason.
  unfold DefaultContext.promptUserForTemplate. cbv zeta.
  match goal with
  | |- context [promptUser ?h bursts (newSession ?qp)] =>
      assert (Hnr : forall r, outcome (promptUser h bursts (newSession qp))
                              <> Some (Rejected r))
  end.
  { intros r. apply promptUser_not_rejected.
    - intros handler b E. injection E as <-. destruct b; reflexivity.
    - constructor. }
  match goal with
  | |- context [outcome ?p] => destruct (outcome p) as [[choices|r]|] eqn:E
  end.
  - destruct (verifySinglePickerOutput choices) as [val log]. simpl. discriminate.
  - exfalso. exact (Hnr r eq_refl).
  - simpl. discriminate.
Qed.

Lemma initialize_twice_same_location_witness :
  SamCliConfiguration.getSamCliLocation SamCliConfiguration.functionSettings
    (SamCliConfiguration.initialize SamCliConfiguration.functionSettings
       (fun path => String.eqb path "/usr/local/bin/sam") (Some "/usr/local/bin/sam")
       (SamCliConfiguration.initialize SamCliConfiguration.functionSettings
          (fun path => String.eqb path "/usr/local/bin/sam") (Some "/usr/local/bin/sam")
          (fun _ => None)))
  = SamCliConfiguration.getSamCliLocation SamCliConfiguration.functionSettings
      (SamCliConfiguration.initialize SamCliConfiguration.functionSettings
         (fun path => String.eqb path "/usr/local/bin/sam") (Some "/usr/local/bin/sam")
         (fun _ => None)).
Proof.
  apply (@initialize_twice_same_location _ SamCliConfiguration.functionSettings
           (fun path => String.eqb path "/usr/local/bin/sam")
           (Some "/usr/local/bin/sam") (fun _ => None)).
  intros s key v t. simpl. now rewrite String.eqb_refl.
Defined.

(* ================================================================= *)
(** ** [run()] on the steps of the wizard *)

Section LoopFacts.
Variables Id St Res : Type.
Variable step : Id -> St -> St * option Id.
Variable assemble : St -> option Res.

(** Fuel left over does not change a finished run. *)
Lemma run_from_more_fuel (fuel extra : nat) (s : Id) (st : St) (r : RunReport Id St Res) :
  run_from step assemble fuel s st = Some r ->
  run_from step assemble (fuel + extra) s st = Some r.
Proof.
  revert s st r. induction fuel as [|fuel IH]; intros s st r; simpl; [discriminate|].
  destruct (step s st) as [st' [next|]]; [|trivial].
  destruct (run_from step assemble fuel next st') as [r'|] eqn:E; simpl; [|discriminate].
  intros H. rewrite (IH _ _ _ E). exact H.
Qed.

End LoopFacts.

Section WizardLoop.
Variable C : Type.
Variable context : CreateNewSamAppWizardContext C.

Lemma wizard_invoke_next (s s1 : WizardStep) (st st1 : CreateNewSamAppWizard * C) :
  wizard_invoke context s st = (st1, NextStep s1) ->
  wizard_step context s st = (st1, Some s1).
Proof.
  unfold wizard_invoke, wizard_step.
  destruct (call_step context s (fst st) (snd st)) as [st' [next|]]; simpl;
    intros H; inversion H; reflexivity.
Qed.

(** A run that reaches a step continues as the run from that step. *)
Lemma run_from_reaches (s : WizardStep) (st : CreateNewSamAppWizard * C)
  (path : list WizardStep) (s' : WizardStep) (st' : CreateNewSamAppWizard * C) :
  reaches (wizard_invoke context) s st path s' st' ->
  forall fuel r,
    run_from (wizard_step context) (@wizard_assemble C) fuel s' st' = Some r ->
    run_from (wizard_step context) (@wizard_assemble C) (List.length path + fuel) s st
    = Some (after_path path r).
Proof.
  induction 1 as [s st | s st s1 st1 path s' st' Hstep Hreach IH]; intros fuel r Hrun.
  - simpl. destruct r; exact Hrun.
  - simpl. rewrite (wizard_invoke_next _ _ Hstep). rewrite (IH _ _ Hrun). reflexivity.
Qed.

(** The run in which step [s], reached along [path], returns [undefined]. *)
Lemma run_exits (c0 : C) (path : list WizardStep) (s : WizardStep)
  (w : CreateNewSamAppWizard) (c : C) (w' : CreateNewSamAppWizard) (c' : C)
  (fuel : nat) :
  reaches (wizard_invoke context) startStep (newWizard, c0) path s (w, c) ->
  call_step context s w c = ((w', c'), None) ->
  List.length path < fuel ->
  run context fuel c0 = Some (mkReport (getResult w') (path ++ [s]) (w', c')).
Proof.
  intros Hreach Hstep Hfuel. unfold run.
  assert (Hone : run_from (wizard_step context) (@wizard_assemble C) 1 s (w, c)
                 = Some (mkReport (getResult w') [s] (w', c'))).
  { simpl. unfold wizard_step. simpl. rewrite Hstep. reflexivity. }
  apply run_from_more_fuel with (extra := fuel - List.length path - 1) in Hone.
  replace fuel with (List.length path + (1 + (fuel - List.length path - 1))) by lia.
  rewrite (run_from_reaches Hreach _ Hone). reflexivity.
Qed.

(** Where a step returns [undefined], and what the fields are then. *)
Lemma exit_cases (c0 : C) (path : list WizardStep) (s : WizardStep)
  (w : CreateNewSamAppWizard) (c : C) (w' : CreateNewSamAppWizard) (c' : C) :
  reaches (wizard_invoke context) startStep (newWizard, c0) path s (w, c) ->
  call_step context s w c = ((w', c'), None) ->
  (s = RUNTIME /\ getResult w' = None) \/ (s = NAME /\ mandatory_set w').
Proof.
  intros Hreach Hstep.
  pose proof (reaches_step_ready Hreach I) as Hready. simpl in Hready.
  destruct s; simpl in Hstep;
    unfold RUNTIME_step, TEMPLATE_step, REGION_step, REGISTRY_step,
      SCHEMA_step, LOCATION_step, NAME_step in Hstep;
    match type of Hstep with
    | context [let (_, _) := ?p in _] => destruct p as [c1 v]
    end; simpl in Hstep.
  - left. destruct (Js.truthy v) eqn:Ev; inversion Hstep; subst.
    split; [reflexivity|].
    unfold getResult, mandatory_missing. simpl. rewrite Ev. reflexivity.
  - destruct (Js.strict_eq v "eventBridge-schema-app"); [discriminate|].
    destruct (Js.truthy v); discriminate.
  - destruct (Js.truthy v); discriminate.
  - destruct (Js.truthy v); discriminate.
  - destruct (Js.truthy v); discriminate.
  - destruct (Js.truthy_obj v); simpl in Hstep; [discriminate|].
    destruct (Js.strict_eq (template w) "eventBridge-schema-app"); discriminate.
  - right. simpl in Hready. destruct Hready as (Hr & Ht & _ & Hl).
    destruct (Js.truthy v) eqn:Ev; inversion Hstep; subst.
    split; [reflexivity|]. unfold mandatory_set. simpl. auto.
Qed.

End WizardLoop.



(** The two ends of a run: every prompt answered, and the first prompt
    cancelled. *)
Example run_after_all_answers :
  option_map (@result _ _ _)
    (run scriptedContext 4
       [Some "nodejs12.x"; Some "helloworld"; Some "/work"; Some "app"])
  = Some (Some (mkResponse (Some "nodejs12.x") (Some "helloworld") None None None
                  (Some (mkUri "/work")) (Some "app"))).
Proof. reflexivity. Qed.

Example run_cancelled_at_once :
  run scriptedContext 1 [None] = Some (mkReport None [RUNTIME] (newWizard, [])).
Proof. reflexivity. Qed.



